(** * Boagent metrics pipeline: a shallow embedding of [boagent/api/api.py]

    The Python module computes the environmental impact of a host over a
    time window.  The functions of the module are translated one by one:
    Python floats are IEEE binary64 numbers ([PrimFloat]), JSON documents
    and Python dictionaries are values of [pyval] (dictionaries keep their
    insertion order, as Python's do), exceptions are the [Raise] case of
    [result], and the parts of the run that touch the outside (the clock,
    the two JSON files, the hardware collector, the impact service) read
    and update an explicit [world]. *)

From Stdlib Require Import ZArith NArith List String Ascii Bool Floats Lia.
Import ListNotations.

Local Open Scope string_scope.
Local Open Scope list_scope.

(** ** Python values and exceptions *)

#[local] Set Warnings "-register-all".

Inductive pyval : Type :=
| VNone
| VBool (b : bool)
| VInt (z : Z)
| VFloat (f : float)
| VStr (s : string)
| VList (l : list pyval)
| VDict (d : list (string * pyval)).

Inductive exn : Type :=
| KeyError (k : string)
| IndexError
| TypeError
| ValueError
| ZeroDivisionError
| OverflowError
| OSError
| JSONDecodeError
| ApiException.

Inductive result (A : Type) : Type :=
| Ok (a : A)
| Raise (e : exn).

Arguments Ok {A} a.
Arguments Raise {A} e.

Definition rbind {A B : Type} (r : result A) (k : A -> result B) : result B :=
  match r with
  | Ok a => k a
  | Raise e => Raise e
  end.

Declare Scope result_scope.
Delimit Scope result_scope with result.
Notation "'let?' x ':=' r 'in' k" :=
  (rbind r (fun x => k))
  (at level 10, x name, r at level 100, k at level 200) : result_scope.

Definition is_ok {A : Type} (r : result A) : bool :=
  match r with Ok _ => true | Raise _ => false end.

(** ** Floats as Python uses them *)

Module PyFloat.

Local Open Scope float_scope.

(** [bool(x)] of a float: everything but the two zeros is true. *)
Definition truthy (x : float) : bool := negb (x =? 0).

(** [a / b]: Python raises on a zero divisor instead of returning an
    infinity or a NaN. *)
Definition truediv (a b : float) : result float :=
  if b =? 0 then Raise ZeroDivisionError else Ok (a / b).

(** Conversion of a Python integer: round to nearest even, and
    [OverflowError] when the integer is beyond the largest float. *)
Definition of_int (z : Z) : result float :=
  if (0 <=? z)%Z && (z <? 2 ^ 63)%Z then
    Ok (of_uint63 (Uint63.of_Z z))
  else
    let f := SF2Prim (binary_normalize prec emax z 0 false) in
    if is_infinity f then Raise OverflowError else Ok f.

(** [a / n] with an integer divisor: the divisor is converted first,
    and a zero divisor raises. *)
Definition truediv_int (a : float) (n : Z) : result float :=
  match of_int n with
  | Raise e => Raise e
  | Ok f => if (n =? 0)%Z then Raise ZeroDivisionError else Ok (a / f)
  end.

Definition of_bool (b : bool) : float := if b then 1 else 0.

End PyFloat.

(** ** Dictionaries, subscripts and the builtins the module calls *)

Fixpoint dict_get (d : list (string * pyval)) (k : string) : option pyval :=
  match d with
  | [] => None
  | (k', v) :: d' => if String.eqb k' k then Some v else dict_get d' k
  end.

(** [d[k] = v]: an existing key keeps its place, a new key goes last. *)
Fixpoint dict_set (d : list (string * pyval)) (k : string) (v : pyval)
  : list (string * pyval) :=
  match d with
  | [] => [(k, v)]
  | (k', v') :: d' =>
      if String.eqb k' k then (k, v) :: d' else (k', v') :: dict_set d' k v
  end.

Definition dict_has (d : list (string * pyval)) (k : string) : bool :=
  match dict_get d k with Some _ => true | None => false end.

(** [v[k]] with a string key. *)
Definition getitem (v : pyval) (k : string) : result pyval :=
  match v with
  | VDict d =>
      match dict_get d k with
      | Some x => Ok x
      | None => Raise (KeyError k)
      end
  | _ => Raise TypeError
  end.

(** [v[0]]: lists and strings are indexed, a JSON object has no integer
    key, the other values are not subscriptable. *)
Definition getitem0 (v : pyval) : result pyval :=
  match v with
  | VList [] => Raise IndexError
  | VList (x :: _) => Ok x
  | VStr EmptyString => Raise IndexError
  | VStr (String c _) => Ok (VStr (String c EmptyString))
  | VDict _ => Raise (KeyError "0")
  | _ => Raise TypeError
  end.

(** [k in v]. *)
Definition contains (v : pyval) (k : string) : result bool :=
  match v with
  | VDict d => Ok (dict_has d k)
  | _ => Raise TypeError
  end.

Definition len (v : pyval) : result Z :=
  match v with
  | VList l => Ok (Z.of_nat (List.length l))
  | VStr s => Ok (Z.of_nat (String.length s))
  | VDict d => Ok (Z.of_nat (List.length d))
  | _ => Raise TypeError
  end.

(** The elements a [for] loop or a comprehension visits. *)
Definition iter (v : pyval) : result (list pyval) :=
  match v with
  | VList l => Ok l
  | VDict d => Ok (map (fun kv => VStr (fst kv)) d)
  | VStr s =>
      Ok (map (fun c => VStr (String c EmptyString)) (list_ascii_of_string s))
  | _ => Raise TypeError
  end.

Definition truthy (v : pyval) : bool :=
  match v with
  | VNone => false
  | VBool b => b
  | VInt z => negb (Z.eqb z 0)
  | VFloat f => PyFloat.truthy f
  | VStr s => negb (String.eqb s EmptyString)
  | VList l => match l with [] => false | _ => true end
  | VDict d => match d with [] => false | _ => true end
  end.

(** The numeric value of an operand of float arithmetic ([x * ratio],
    [y + x]): integers and booleans are converted, anything else is a
    [TypeError]. *)
Definition as_float (v : pyval) : result float :=
  match v with
  | VFloat f => Ok f
  | VInt z => PyFloat.of_int z
  | VBool b => Ok (PyFloat.of_bool b)
  | _ => Raise TypeError
  end.

(** ** The outside of the process *)

(** What [open] followed by [json.load] finds at a path. *)
Inductive file : Type :=
| Missing
| Unparsable
| Json (v : pyval).

Definition json_load (f : file) : result pyval :=
  match f with
  | Missing => Raise OSError
  | Unparsable => Raise JSONDecodeError
  | Json v => Ok v
  end.

Inductive event : Type :=
| EvCollect
| EvReadHardware
| EvReadPower
| EvImpactByConfig (usage configuration : pyval)
| EvImpactByModel (usage model : pyval).

(** [clock n] is what the [n]-th call of [time.time()] returns;
    [clock_reads] counts the calls made so far.  [hardware_cli] is the
    collector, run on the cache file it overwrites; it raises only when the
    command cannot be started.  The two [impact_by_*] fields are the
    endpoints of the impact service, applied to the usage and to the
    configuration or model of the request. *)
Record world : Type := mkWorld {
  clock : nat -> float;
  clock_reads : nat;
  power_file : file;
  hardware_file : file;
  hardware_cli : file -> result file;
  impact_by_config : pyval -> pyval -> result pyval;
  impact_by_model : pyval -> pyval -> result pyval;
  events : list event
}.

Definition tick (w : world) : world :=
  mkWorld (clock w) (S (clock_reads w)) (power_file w) (hardware_file w)
    (hardware_cli w) (impact_by_config w) (impact_by_model w) (events w).

Definition log (e : event) (w : world) : world :=
  mkWorld (clock w) (clock_reads w) (power_file w) (hardware_file w)
    (hardware_cli w) (impact_by_config w) (impact_by_model w)
    (events w ++ [e]).

Definition set_hardware_file (f : file) (w : world) : world :=
  mkWorld (clock w) (clock_reads w) (power_file w) f (hardware_cli w)
    (impact_by_config w) (impact_by_model w) (events w).

(** Computations that may raise and that read or change the world.  The
    world is threaded through a raise: what was done before stays done. *)
Definition M (A : Type) : Type := world -> result A * world.

Definition ret {A : Type} (a : A) : M A := fun w => (Ok a, w).

Definition bind {A B : Type} (m : M A) (k : A -> M B) : M B :=
  fun w =>
    match m w with
    | (Ok a, w') => k a w'
    | (Raise e, w') => (Raise e, w')
    end.

Definition lift {A : Type} (r : result A) : M A := fun w => (r, w).

(** [time.time()]. *)
Definition time_time : M float :=
  fun w => (Ok (clock w (clock_reads w)), tick w).

(** [try: m  except Exception: h]. *)
Definition try_except {A : Type} (m : M A) (h : exn -> M A) : M A :=
  fun w =>
    match m w with
    | (Ok a, w') => (Ok a, w')
    | (Raise e, w') => h e w'
    end.

Declare Scope py_scope.
Delimit Scope py_scope with py.
Notation "x <- m ;; k" := (bind m (fun x => k))
  (at level 61, m at next level, right associativity) : py_scope.
Notation "m ;;; k" := (bind m (fun _ => k))
  (at level 61, right associativity) : py_scope.

Local Open Scope result_scope.

(** ** The pipeline *)

Section Pipeline.

(** Python's [float] applied to a string (the builtin's parser); [None]
    when the builtin raises [ValueError]. *)
Variable float_of_str : string -> option float.

(** [utils.sort_ram] and [utils.sort_disks]. *)
Variable sort_ram : pyval -> result pyval.
Variable sort_disks : pyval -> result pyval.

(** [settings.seconds_in_one_year], as the float every use of it in this
    module converts it to (an operand of a float product, or the argument
    of [float]). *)
Variable seconds_in_one_year : float.

(** The builtin [float]. *)
Definition py_float (v : pyval) : result float :=
  match v with
  | VFloat f => Ok f
  | VInt z => PyFloat.of_int z
  | VBool b => Ok (PyFloat.of_bool b)
  | VStr s =>
      match float_of_str s with
      | Some f => Ok f
      | None => Raise ValueError
      end
  | _ => Raise TypeError
  end.

(** *** Power samples *)

(** [float(e['host']['timestamp'])] and [float(r['host']['consumption'])]. *)
Definition host_timestamp (e : pyval) : result float :=
  let? host := getitem e "host" in
  let? t := getitem host "timestamp" in
  py_float t.

Definition host_consumption (r : pyval) : result float :=
  let? host := getitem r "host" in
  let? c := getitem host "consumption" in
  py_float c.

(** The loop [for r in power_data: total_host += ...]. *)
Fixpoint total_consumption (total_host : float) (power_data : list pyval)
  : result float :=
  match power_data with
  | [] => Ok total_host
  | r :: rest =>
      let? c := host_consumption r in
      total_consumption (total_host + c)%float rest
  end.

Definition compute_average_consumption (power_data : list pyval)
  : result float :=
  let total_host := 0%float in
  let avg_host := 0%float in
  if (0 <? Z.of_nat (List.length power_data))%Z then
    let? total_host := total_consumption total_host power_data in
    let? per_sample :=
      PyFloat.truediv_int total_host (Z.of_nat (List.length power_data)) in
    PyFloat.truediv per_sample 1000000
  else Ok avg_host.

(** The comprehension that keeps the elements [e] of [data] with
    [start_time <= float(e['host']['timestamp']) <= end_time]. *)
Fixpoint select_samples (start_time end_time : float) (data : list pyval)
  : result (list pyval) :=
  match data with
  | [] => Ok []
  | e :: rest =>
      let? t := host_timestamp e in
      let keep := ((start_time <=? t) && (t <=? end_time))%float in
      let? res := select_samples start_time end_time rest in
      Ok (if keep then e :: res else res)
  end.

Definition low_confidence_warning : string :=
  "The time window is lower than one hour, but the energy consumption estimate is in Watt.Hour. So this is an extrapolation of the power usage profile on one hour. Be careful with this data.".

Definition get_power_data (start_time end_time : float) : M pyval :=
  fun w =>
    let w := log EvReadPower w in
    (let? data := json_load (power_file w) in
     let? elements := iter data in
     let? res := select_samples start_time end_time elements in
     let power_data := dict_set [] "raw_data" (VList res) in
     let? avg := compute_average_consumption res in
     let power_data :=
       dict_set power_data "host_avg_consumption" (VFloat avg) in
     let power_data :=
       if (end_time - start_time <=? 3600)%float
       then dict_set power_data "warning" (VStr low_confidence_warning)
       else power_data in
     Ok (VDict power_data),
     w).

(** *** Hardware inventory *)

Definition read_hardware_data : M pyval :=
  fun w =>
    let w := log EvReadHardware w in
    (json_load (hardware_file w), w).

(** [run([hardware_cli, ...])]: the exit status is not looked at; only a
    command that cannot be started raises. *)
Definition build_hardware_data : M unit :=
  fun w =>
    let w := log EvCollect w in
    match hardware_cli w (hardware_file w) with
    | Ok f => (Ok tt, set_hardware_file f w)
    | Raise e => (Raise e, w)
    end.

Definition get_hardware_data (fetch_hardware : bool) : M pyval :=
  ((if fetch_hardware then build_hardware_data else ret tt) ;;;
   try_except read_hardware_data
     (fun _ => build_hardware_data ;;; read_hardware_data))%py.

(** *** Configuration and usage sent to the impact service *)

Definition generate_machine_configuration (hardware_data : pyval)
  : result pyval :=
  let? cpus := getitem hardware_data "cpus" in
  let? units := len cpus in
  let? cpus := getitem hardware_data "cpus" in
  let? first := getitem0 cpus in
  let? core_units := getitem first "core_units" in
  let? cpus := getitem hardware_data "cpus" in
  let? first := getitem0 cpus in
  let? family := getitem first "family" in
  let? rams := getitem hardware_data "rams" in
  let? ram := sort_ram rams in
  let? disks := getitem hardware_data "disks" in
  let? disk := sort_disks disks in
  let? has_mother_board := contains hardware_data "mother_board" in
  let? motherboard :=
    if has_mother_board then getitem hardware_data "mother_board"
    else Ok (VDict [("units", VInt 1)]) in
  let? has_power_supply := contains hardware_data "power_supply" in
  let? power_supply :=
    if has_power_supply then getitem hardware_data "power_supply"
    else Ok (VDict [("units", VInt 1)]) in
  Ok (VDict
        [("cpu", VDict [("units", VInt units);
                        ("core_units", core_units);
                        ("family", family)]);
         ("ram", ram);
         ("disk", disk);
         ("motherboard", motherboard);
         ("power_supply", power_supply)]).

(** [location] is a string or [None]; [if location] holds for a
    non-empty string. *)
Definition location_given (location : option string) : bool :=
  match location with
  | Some s => negb (String.eqb s EmptyString)
  | None => false
  end.

Definition location_value (location : option string) : pyval :=
  match location with
  | Some s => VStr s
  | None => VNone
  end.

Definition format_usage_request (start_time end_time : float)
  (host_avg_consumption : pyval) (location : option string)
  : result pyval :=
  let? hours_use_time := PyFloat.truediv (end_time - start_time) 3600 in
  let kwargs_usage := [("hours_use_time", VFloat hours_use_time)] in
  let kwargs_usage :=
    if location_given location
    then dict_set kwargs_usage "usage_location" (location_value location)
    else kwargs_usage in
  let kwargs_usage :=
    if truthy host_avg_consumption
    then dict_set kwargs_usage "hours_electrical_consumption"
           host_avg_consumption
    else kwargs_usage in
  Ok (VDict kwargs_usage).

Definition query_machine_impact_data (model configuration usage : pyval)
  : M pyval :=
  fun w =>
    if truthy configuration then
      (impact_by_config w usage configuration,
       log (EvImpactByConfig usage configuration) w)
    else if truthy model then
      (impact_by_model w usage model,
       log (EvImpactByModel usage model) w)
    else (Ok VNone, w).

(** *** The report *)

(** One entry of the report: the dictionary literal with the keys
    [value], [description], [type], [unit] and [long_unit]. *)
Definition metric (value : pyval) (description type unit long_unit : string)
  : pyval :=
  VDict [("value", value);
         ("description", VStr description);
         ("type", VStr type);
         ("unit", VStr unit);
         ("long_unit", VStr long_unit)].

(** [boaviztapi_data["impacts"][criterion][phase]]. *)
Definition impact (boaviztapi_data : pyval) (criterion phase : string)
  : result pyval :=
  let? impacts := getitem boaviztapi_data "impacts" in
  let? c := getitem impacts criterion in
  getitem c phase.

(** [boaviztapi_data["verbose"]["USAGE"][field][key]]. *)
Definition usage_verbose (boaviztapi_data : pyval) (field key : string)
  : result pyval :=
  let? verbose := getitem boaviztapi_data "verbose" in
  let? usage := getitem verbose "USAGE" in
  let? f := getitem usage field in
  getitem f key.

(** [x * ratio] and [x * ratio + y] on figures of the service. *)
Definition scaled (x : pyval) (ratio : float) : result float :=
  let? a := as_float x in
  Ok (a * ratio)%float.

Definition plus (a : float) (y : pyval) : result float :=
  let? b := as_float y in
  Ok (a + b)%float.

(** Lines 111-114: the ratio, from the bounds as they were passed. *)
Definition window_ratio (start_time end_time lifetime : float)
  : result float :=
  if PyFloat.truthy start_time && PyFloat.truthy end_time then
    PyFloat.truediv (end_time - start_time)
      (lifetime * seconds_in_one_year)
  else Ok 1%float.

(** Lines 115-118: the defaults of the bounds. *)
Definition resolve_start (now start_time : float) : float :=
  if (start_time =? 0)%float then (now - 3600)%float else start_time.

Definition resolve_end (now end_time : float) : float :=
  if (end_time =? 0)%float then now else end_time.

(** Lines 119-120: the lifetime is grown to the window's length. *)
Definition grow_lifetime (start_time end_time lifetime : float)
  : result float :=
  if (lifetime * seconds_in_one_year <=? end_time - start_time)%float then
    PyFloat.truediv (end_time - start_time) seconds_in_one_year
  else Ok lifetime.

Definition str_eq (v : pyval) (s : string) : bool :=
  match v with
  | VStr s' => String.eqb s' s
  | _ => false
  end.

Definition format_location (location : option string) : string :=
  match location with
  | Some s => s
  | None => "None"
  end.

Definition warning_modify : string :=
  " WARNING : The provided trigram doesn't match any existing country. So this result is based on average European electricity mix. Be careful with this data.".

Definition warning_set : string :=
  "WARNING : As no information was provided about your location, this result is based on average European electricity mix. Be careful with this data.".

Local Open Scope py_scope.

Definition get_metrics (start_time end_time : float) (verbose : bool)
  (location : option string) (measure_power : bool) (lifetime : float)
  (fetch_hardware : bool) : M pyval :=
  now <- time_time ;;
  ratio <- lift (window_ratio start_time end_time lifetime) ;;
  let start_time := resolve_start now start_time in
  let end_time := resolve_end now end_time in
  lifetime <- lift (grow_lifetime start_time end_time lifetime) ;;
  hardware_data <- get_hardware_data fetch_hardware ;;
  let res := [("emissions_calculation_data", VDict [])] in
  let host_avg_consumption := VNone in
  measured <-
    (if measure_power then
       power_data <- get_power_data start_time end_time ;;
       host_avg_consumption <-
         lift (getitem power_data "host_avg_consumption") ;;
       has_warning <- lift (contains power_data "warning") ;;
       if has_warning : bool then
         warning <- lift (getitem power_data "warning") ;;
         ret (host_avg_consumption,
              dict_set res "emissions_calculation_data"
                (VDict [("energy_consumption_warning", warning)]))
       else ret (host_avg_consumption, res)
     else ret (host_avg_consumption, res)) ;;
  let host_avg_consumption := fst measured in
  let res := snd measured in
  configuration <- lift (generate_machine_configuration hardware_data) ;;
  usage <-
    lift (format_usage_request start_time end_time host_avg_consumption
            location) ;;
  boaviztapi_data <- query_machine_impact_data VNone configuration usage ;;
  res <-
    (if measure_power then
       gwp_use <- lift (impact boaviztapi_data "gwp" "use") ;;
       let res :=
         dict_set res "total_operational_emissions"
           (metric gwp_use
              "GHG emissions related to usage, from start_time to end_time."
              "gauge" "kg CO2eq" "kilograms CO2 equivalent") in
       adp_use <- lift (impact boaviztapi_data "adp" "use") ;;
       let res :=
         dict_set res "total_operational_abiotic_resources_depletion"
           (metric adp_use
              "Abiotic Resources Depletion (minerals & metals, ADPe) due to the usage phase."
              "gauge" "kgSbeq" "kilograms Antimony equivalent") in
       pe_use <- lift (impact boaviztapi_data "pe" "use") ;;
       ret (dict_set res "total_operational_primary_energy_consumed"
              (metric pe_use
                 "Primary Energy consumed due to the usage phase."
                 "gauge" "MJ" "Mega Joules"))
     else ret res) ;;
  gwp_manufacture <- lift (impact boaviztapi_data "gwp" "manufacture") ;;
  embedded <- lift (scaled gwp_manufacture ratio) ;;
  gwp_use <- lift (impact boaviztapi_data "gwp" "use") ;;
  calculated <- lift (plus embedded gwp_use) ;;
  let res :=
    dict_set res "calculated_emissions"
      (metric (VFloat calculated)
         "Total Green House Gaz emissions calculated for manufacturing and usage phases, between start_time and end_time"
         "gauge" "kg CO2eq" "kilograms CO2 equivalent") in
  let res :=
    dict_set res "start_time"
      (metric (VFloat start_time)
         "Start time for the evaluation, in timestamp format (seconds since 1970)"
         "counter" "s" "seconds") in
  let res :=
    dict_set res "end_time"
      (metric (VFloat end_time)
         "End time for the evaluation, in timestamp format (seconds since 1970)"
         "counter" "s" "seconds") in
  gwp_manufacture <- lift (impact boaviztapi_data "gwp" "manufacture") ;;
  embedded_gwp <- lift (scaled gwp_manufacture ratio) ;;
  let res :=
    dict_set res "embedded_emissions"
      (metric (VFloat embedded_gwp)
         "Embedded carbon emissions (manufacturing phase)"
         "gauge" "kg CO2eq" "kilograms CO2 equivalent") in
  adp_manufacture <- lift (impact boaviztapi_data "adp" "manufacture") ;;
  embedded_adp <- lift (scaled adp_manufacture ratio) ;;
  let res :=
    dict_set res "embedded_abiotic_resources_depletion"
      (metric (VFloat embedded_adp)
         "Embedded abiotic ressources consumed (manufacturing phase)"
         "gauge" "kg Sbeq" "kilograms ADP equivalent") in
  pe_manufacture <- lift (impact boaviztapi_data "pe" "manufacture") ;;
  embedded_pe <- lift (scaled pe_manufacture ratio) ;;
  let res :=
    dict_set res "embedded_primary_energy"
      (metric (VFloat embedded_pe)
         "Embedded primary energy consumed (manufacturing phase)"
         "gauge" "MJ" "Mega Joules") in
  gwp_factor <- lift (usage_verbose boaviztapi_data "gwp_factor" "value") ;;
  let description :=
    String.append
      "Carbon intensity of the elextricity mixed. Mix considered : "
      (format_location location) in
  usage_location_status <-
    lift (usage_verbose boaviztapi_data "usage_location" "status") ;;
  let description :=
    if str_eq usage_location_status "MODIFY"
    then String.append description warning_modify
    else if str_eq usage_location_status "SET"
    then String.append description warning_set
    else description in
  let calculation_data :=
    [("average_power_measured",
      metric host_avg_consumption
        "Average power measured from start_time to end_time"
        "gauge" "W" "Watts");
     ("electricity_carbon_intensity",
      metric gwp_factor description
        "gauge" "kg CO2eq / kWh"
        "Kilograms CO2 equivalent per KiloWattHour")] in
  let calculation_data :=
    if verbose then
      dict_set calculation_data "raw_data"
        (VDict [("hardware_data", hardware_data);
                ("resources_data", VStr "not implemented yet");
                ("boaviztapi_data", boaviztapi_data)])
    else calculation_data in
  ret (VDict (dict_set res "emissions_calculation_data"
                (VDict calculation_data))).

Local Close Scope py_scope.

End Pipeline.

(** ** The window of the CSV export *)

Module Datetime.

Local Open Scope Z_scope.

(** A naive [datetime] is counted in microseconds since [datetime.min]
    (0001-01-01T00:00:00); [datetime.max] is the last microsecond of the
    year 9999. *)
Definition microseconds_per_day : Z := 86400000000.
Definition datetime_max : Z := 3652059 * microseconds_per_day - 1.
Definition unix_epoch : Z := 719162 * microseconds_per_day.

(** What [datetime.now()] can return. *)
Definition clock_reading (t : Z) : Prop := unix_epoch <= t <= datetime_max.

(** [timedelta(...)] of a whole number of microseconds: the constructor
    refuses more than 999999999 days either way. *)
Definition timedelta (microseconds : Z) : result Z :=
  let days := microseconds / microseconds_per_day in
  if (days <? -999999999) || (999999999 <? days)
  then Raise OverflowError
  else Ok microseconds.

Definition days (n : Z) : result Z := timedelta (n * microseconds_per_day).
Definition hours (n : Z) : result Z := timedelta (n * 3600000000).
Definition minutes (n : Z) : result Z := timedelta (n * 60000000).

(** [t - delta]: the result has to be a datetime. *)
Definition sub (t delta : Z) : result Z :=
  let r := t - delta in
  if (r <? 0) || (datetime_max <? r) then Raise OverflowError else Ok r.

End Datetime.

(** [s.endswith(c)] and [s.replace(c, '')] for a one-character [c]. *)
Fixpoint endswith (s : string) (c : ascii) : bool :=
  match s with
  | EmptyString => false
  | String a rest =>
      match rest with
      | EmptyString => Ascii.eqb a c
      | String _ _ => endswith rest c
      end
  end.

Fixpoint remove_char (s : string) (c : ascii) : string :=
  match s with
  | EmptyString => EmptyString
  | String a rest =>
      if Ascii.eqb a c then remove_char rest c
      else String a (remove_char rest c)
  end.

Section CsvWindow.

(** Python's [int] applied to a string; [None] when the builtin raises
    [ValueError]. *)
Variable int_of_str : string -> option Z.

Definition py_int (s : string) : result Z :=
  match int_of_str s with
  | Some z => Ok z
  | None => Raise ValueError
  end.

(** [now1] is what [datetime.now()] returns at line 352 and [now2] what
    it returns at line 356, which runs only when [since] is ["now"].  The
    two [ValueError(...)] expressions of the source build an exception
    object and drop it: nothing is raised there. *)
Definition parse_date_info (now1 now2 : Z) (since until : string)
  : result (Z * Z) :=
  let end_date := now1 in
  let? delta := Datetime.hours 1 in
  let? start_date := Datetime.sub end_date delta in
  let end_date := if String.eqb since "now" then now2 else end_date in
  let? start_date :=
    if endswith until "d" then
      let? days := py_int (remove_char until "d") in
      let? delta := Datetime.days days in
      Datetime.sub end_date delta
    else Ok start_date in
  let? start_date :=
    if endswith until "h" then
      let? hours := py_int (remove_char until "h") in
      let? delta := Datetime.hours hours in
      Datetime.sub end_date delta
    else if endswith until "m" then
      let? minutes := py_int (remove_char until "m") in
      let? delta := Datetime.minutes minutes in
      Datetime.sub end_date delta
    else Ok start_date in
  Ok (start_date, end_date).

End CsvWindow.

(** ** The first version of the service, [api/api.py] *)

Module Prototype.

(** What the module does outside the process, in the order it does it. *)
Inductive call : Type :=
| Collect
| ReadHardware
| CpuImpact (cpu : pyval)
| RamImpact (ram : pyval)
| SsdImpact (disk : pyval)
| HddImpact (disk : pyval)
| MotherboardImpact (mother_board : pyval).

(** The generated client: the constructors of its models and the
    endpoints of the component API. *)
Record client : Type := mkClient {
  Cpu : pyval -> result pyval;
  Ram : pyval -> result pyval;
  Disk : pyval -> result pyval;
  MotherBoard : pyval -> result pyval;
  cpu_impact : pyval -> result pyval;
  ram_impact : pyval -> result pyval;
  ssd_impact : pyval -> result pyval;
  hdd_impact : pyval -> result pyval;
  motherboard_impact : pyval -> result pyval
}.

(** A computation that may raise, with the calls it made. *)
Definition T (A : Type) : Type := (result A * list call)%type.

Definition tret {A : Type} (a : A) : T A := (Ok a, []).

Definition tlift {A : Type} (r : result A) : T A := (r, []).

Definition tbind {A B : Type} (m : T A) (k : A -> T B) : T B :=
  match m with
  | (Ok a, calls) =>
      match k a with
      | (r, calls') => (r, calls ++ calls')
      end
  | (Raise e, calls) => (Raise e, calls)
  end.

(** A model built from a record unpacked into keyword arguments (the two
    stars of the source): the record has to be a mapping. *)
Definition construct (model : pyval -> result pyval) (kwargs : pyval)
  : result pyval :=
  match kwargs with
  | VDict _ => model kwargs
  | _ => Raise TypeError
  end.

(** One of the three loops of [get_embedded_impact_data]: each item is made
    into a model, posted, and the answer appended to the list.  [post]
    takes the item and its model and gives the answer with the call made. *)
Fixpoint post_each (model : pyval -> result pyval)
  (post : pyval -> pyval -> result pyval * call) (items : list pyval)
  : T (list pyval) :=
  match items with
  | [] => tret []
  | item :: rest =>
      tbind (tlift (construct model item)) (fun object =>
      tbind (let (answer, made) := post item object in (answer, [made]))
        (fun answer =>
      tbind (post_each model post rest) (fun answers =>
      tret (answer :: answers))))
  end.

(** The test [d == "ssd"] compares the disk record itself with a string. *)
Definition post_disk (api : client) (d disk : pyval) : result pyval * call :=
  if str_eq d "ssd"
  then (ssd_impact api disk, SsdImpact disk)
  else (hdd_impact api disk, HddImpact disk).

Definition get_embedded_impact_data (api : client) (hardware_data : pyval)
  : T pyval :=
  tbind (tlift (let? cpus := getitem hardware_data "cpus" in iter cpus))
    (fun cpus =>
  tbind (post_each (Cpu api)
           (fun _ cpu => (cpu_impact api cpu, CpuImpact cpu)) cpus)
    (fun res_cpus =>
  tbind (tlift (let? rams := getitem hardware_data "rams" in iter rams))
    (fun rams =>
  tbind (post_each (Ram api)
           (fun _ ram => (ram_impact api ram, RamImpact ram)) rams)
    (fun res_rams =>
  tbind (tlift (let? disks := getitem hardware_data "disks" in iter disks))
    (fun disks =>
  tbind (post_each (Disk api) (post_disk api) disks)
    (fun res_disks =>
  tbind (tlift (let? mb := getitem hardware_data "mother_board" in
                construct (MotherBoard api) mb))
    (fun mother_board =>
  tbind (motherboard_impact api mother_board,
         [MotherboardImpact mother_board])
    (fun res_motherboard =>
  tret (VDict [("disks_impact", VList res_disks);
               ("rams_impact", VList res_rams);
               ("cpus_impact", VList res_cpus);
               ("motherboard_impact", res_motherboard)]))))))))).

(** [float(x['impacts']['gwp']['manufacture'])]. *)
Definition gwp_manufacture (float_of_str : string -> option float)
  (x : pyval) : result float :=
  let? impacts := getitem x "impacts" in
  let? gwp := getitem impacts "gwp" in
  let? manufacture := getitem gwp "manufacture" in
  py_float float_of_str manufacture.

(** One loop [for d in ...: total += ...]. *)
Fixpoint add_manufacture (float_of_str : string -> option float)
  (total : float) (impacts : list pyval) : result float :=
  match impacts with
  | [] => Ok total
  | d :: rest =>
      let? m := gwp_manufacture float_of_str d in
      add_manufacture float_of_str (total + m)%float rest
  end.

(** [round1] is Python's [round(x, 1)] on floats. *)
Definition get_total_embedded_emissions
  (float_of_str : string -> option float) (round1 : float -> float)
  (embedded_impact_data : pyval) : result float :=
  let total := 0%float in
  let? disks := getitem embedded_impact_data "disks_impact" in
  let? disks := iter disks in
  let? total := add_manufacture float_of_str total disks in
  let? rams := getitem embedded_impact_data "rams_impact" in
  let? rams := iter rams in
  let? total := add_manufacture float_of_str total rams in
  let? cpus := getitem embedded_impact_data "cpus_impact" in
  let? cpus := iter cpus in
  let? total := add_manufacture float_of_str total cpus in
  let? motherboard := getitem embedded_impact_data "motherboard_impact" in
  let? m := gwp_manufacture float_of_str motherboard in
  Ok (round1 (total + m)%float).

(** [run] of the collector, then the file it wrote is opened and loaded.
    The function returns the file as it is left. *)
Definition get_hardware_data (hardware_cli : file -> result file)
  (hardware_file : file) : T pyval * file :=
  match hardware_cli hardware_file with
  | Raise e => ((Raise e, [Collect]), hardware_file)
  | Ok written => ((json_load written, [Collect; ReadHardware]), written)
  end.

Definition not_implemented : pyval := VStr "not implemented yet".

(** The route [/query]; [now] is what [time.time()] returns. *)
Definition query (float_of_str : string -> option float)
  (round1 : float -> float) (api : client)
  (hardware_cli : file -> result file) (now : float)
  (start_time end_time : float) (hardware_file : file) : T pyval * file :=
  let start_time := if (start_time =? 0)%float then now else start_time in
  let end_time :=
    if (end_time =? 0)%float then (end_time + (now + 30))%float
    else end_time in
  let (read, hardware_file) := get_hardware_data hardware_cli hardware_file in
  (tbind read (fun hardware_data =>
   tbind (get_embedded_impact_data api hardware_data)
     (fun embedded_impact_data =>
   tbind (tlift (get_total_embedded_emissions float_of_str round1
                   embedded_impact_data))
     (fun total_embedded_emissions =>
   tret (VDict [("start_time", VFloat start_time);
                ("end_time", VFloat end_time);
                ("hardware_data", hardware_data);
                ("embedded_impact_data", embedded_impact_data);
                ("power_data", not_implemented);
                ("resources_data", not_implemented);
                ("total_emissions", not_implemented);
                ("total_power_consumption", not_implemented);
                ("total_embedded_emissions",
                 VFloat total_embedded_emissions);
                ("total_operational_emissions", not_implemented)])))),
   hardware_file).

End Prototype.

(** ** A concrete host, used to run the pipeline *)

Module Sample.

(** No sample of the host below stores a number as a string. *)
Definition float_of_str (_ : string) : option float := None.

(** Sorting leaves the one-element lists of the host below as they are. *)
Definition sort_ram (rams : pyval) : result pyval := Ok rams.
Definition sort_disks (disks : pyval) : result pyval := Ok disks.

Definition seconds_in_one_year : float := 31536000%float.

Definition cpu : pyval :=
  VDict [("core_units", VInt 8); ("family", VStr "x")].

Definition hardware : pyval :=
  VDict [("cpus", VList [cpu; cpu]);
         ("rams", VList [VDict [("capacity", VInt 16)]]);
         ("disks", VList [VDict [("type", VStr "ssd")]]);
         ("mother_board", VDict [("units", VInt 1)])].

Definition power_sample (timestamp consumption : float) : pyval :=
  VDict [("host", VDict [("timestamp", VFloat timestamp);
                         ("consumption", VFloat consumption)])].

Definition power : pyval :=
  VList [power_sample 1000 1000000;
         power_sample 2000 3000000;
         power_sample 9000 5000000].

Definition figures (manufacture use : float) : pyval :=
  VDict [("manufacture", VFloat manufacture); ("use", VFloat use)].

Definition impact_report : pyval :=
  VDict [("impacts",
          VDict [("gwp", figures 970 12);
                 ("adp", figures 0.25 0.5);
                 ("pe", figures 13000 400)]);
         ("verbose",
          VDict [("USAGE",
                  VDict [("gwp_factor", VDict [("value", VFloat 0.375)]);
                         ("usage_location",
                          VDict [("status", VStr "SET")])])])].

(** An inventory without any CPU. *)
Definition no_cpu : pyval :=
  VDict [("cpus", VList []);
         ("rams", VList [VDict [("capacity", VInt 16)]]);
         ("disks", VList [VDict [("type", VStr "ssd")]])].

(** A host: the cache file, what the collector writes, the power file.
    The clock advances by one second at each reading. *)
Definition host_with (hardware_file collected power_file : file) : world :=
  mkWorld (fun n => (1700000000 + of_uint63 (Uint63.of_Z (Z.of_nat n)))%float)
    0 power_file hardware_file
    (fun _ => Ok collected)
    (fun _ _ => Ok impact_report)
    (fun _ _ => Ok impact_report)
    [].

Definition host (power_file : file) : world :=
  host_with (Json hardware) (Json hardware) power_file.

Definition get_metrics :=
  get_metrics float_of_str sort_ram sort_disks seconds_in_one_year.

(** The report of a run on the host, with power measured and without the
    raw data; [VNone] stands for a run that raised. *)
Definition report_of (start_time end_time : float)
  (location : option string) (lifetime : float) (power_file : file)
  : pyval :=
  match fst (get_metrics start_time end_time false location true lifetime
               false (host power_file)) with
  | Ok report => report
  | Raise _ => VNone
  end.

(** What [get_power_data] returns on the host with the three samples. *)
Definition power_data_of (start_time end_time : float) : pyval :=
  match fst (get_power_data float_of_str start_time end_time
               (host (Json power))) with
  | Ok power_data => power_data
  | Raise _ => VNone
  end.

(** Python's [int] on plain decimal numerals, which is all the runs of
    the CSV window below need. *)
Fixpoint digits (acc : Z) (s : string) : option Z :=
  match s with
  | EmptyString => Some acc
  | String c rest =>
      let n := Z.of_nat (nat_of_ascii c) in
      if ((48 <=? n) && (n <=? 57))%Z
      then digits (10 * acc + (n - 48))%Z rest
      else None
  end.

Definition int_of_str (s : string) : option Z :=
  match s with
  | EmptyString => None
  | String _ _ => digits 0 s
  end.

(** 2023-11-14T22:13:20, local time. *)
Definition now : Z :=
  (Datetime.unix_epoch + 1700000000 * 1000000)%Z.

(** A client of the component API whose models keep the record they are
    built from and whose endpoints all give the same answer. *)
Definition component_answer : pyval :=
  VDict [("impacts",
          VDict [("gwp", VDict [("manufacture", VFloat 10.5)])])].

Definition client : Prototype.client :=
  Prototype.mkClient
    (fun d => Ok d) (fun d => Ok d) (fun d => Ok d) (fun d => Ok d)
    (fun _ => Ok component_answer) (fun _ => Ok component_answer)
    (fun _ => Ok component_answer) (fun _ => Ok component_answer)
    (fun _ => Ok component_answer).

(** What the first version gets for the inventory of the host. *)
Definition embedded : pyval :=
  match fst (Prototype.get_embedded_impact_data client hardware) with
  | Ok v => v
  | Raise _ => VNone
  end.

(** Rounding is not needed for the sums of the host, which are exact. *)
Definition round1 (x : float) : float := x.

(** The report of the first version on the host, for a clock at
    1700000000. *)
Definition prototype_report (start_time end_time : float) : pyval :=
  match fst (fst (Prototype.query float_of_str round1 client
                    (fun _ => Ok (Json hardware)) 1700000000
                    start_time end_time Missing)) with
  | Ok v => v
  | Raise _ => VNone
  end.

(** A sample without timestamp, and a power file that ends with it. *)
Definition bad_sample : pyval :=
  VDict [("host", VDict [("consumption", VFloat 5000000)])].

Definition power_with_bad_sample : list pyval :=
  [power_sample 1000 1000000; power_sample 2000 3000000; bad_sample].

(** The report of any run on the host; [VNone] stands for a run that
    raised. *)
Definition report_with (verbose measure_power : bool)
  (start_time end_time : float) (location : option string)
  (lifetime : float) (w : world) : pyval :=
  match fst (get_metrics start_time end_time verbose location measure_power
               lifetime false w) with
  | Ok report => report
  | Raise _ => VNone
  end.

(** A host whose impact service answers with the given status of the usage
    location. *)
Definition impact_report_with (status : string) : pyval :=
  VDict [("impacts",
          VDict [("gwp", figures 970 12);
                 ("adp", figures 0.25 0.5);
                 ("pe", figures 13000 400)]);
         ("verbose",
          VDict [("USAGE",
                  VDict [("gwp_factor", VDict [("value", VFloat 0.375)]);
                         ("usage_location",
                          VDict [("status", VStr status)])])])].

Definition host_answering (status : string) : world :=
  mkWorld (fun n => (1700000000 + of_uint63 (Uint63.of_Z (Z.of_nat n)))%float)
    0 (Json power) (Json hardware)
    (fun _ => Ok (Json hardware))
    (fun _ _ => Ok (impact_report_with status))
    (fun _ _ => Ok (impact_report_with status))
    [].

End Sample.

(** ** Vocabulary of the statements *)

(** [report[name]["value"]]. *)
Definition report_value (report : pyval) (name : string) : result pyval :=
  let? m := getitem report name in
  getitem m "value".

(** [report["emissions_calculation_data"][name]["value"]]. *)
Definition calculation_value (report : pyval) (name : string) : result pyval :=
  let? d := getitem report "emissions_calculation_data" in
  let? m := getitem d name in
  getitem m "value".

(** A figure of the impact service as the float the arithmetic of
    [get_metrics] uses. *)
Definition figure (boaviztapi_data : pyval) (criterion phase : string)
  : result float :=
  let? v := impact boaviztapi_data criterion phase in
  as_float v.

(** What [time.time()] returns when it is called in [w]. *)
Definition now_of (w : world) : float := clock w (clock_reads w).

(** The bounds of the window after the defaults of [get_metrics]. *)
Definition resolved_start (w : world) (start_time : float) : float :=
  resolve_start (now_of w) start_time.

Definition resolved_end (w : world) (end_time : float) : float :=
  resolve_end (now_of w) end_time.

(** The collaborators of the process are the same in [w] and [w']. *)
Definition same_services (w w' : world) : Prop :=
  clock w' = clock w
  /\ power_file w' = power_file w
  /\ hardware_cli w' = hardware_cli w
  /\ impact_by_config w' = impact_by_config w
  /\ impact_by_model w' = impact_by_model w.

(** Events that are not requests to the impact service. *)
Definition local_event (e : event) : bool :=
  match e with
  | EvCollect | EvReadHardware | EvReadPower => true
  | EvImpactByConfig _ _ | EvImpactByModel _ _ => false
  end.

(** The keys of a dictionary, in its order. *)
Definition keys_of (v : pyval) : list string :=
  match v with
  | VDict d => map fst d
  | _ => []
  end.

(** The text of the carbon-intensity entry before any warning. *)
Definition mix_description (location : option string) : string :=
  String.append
    "Carbon intensity of the elextricity mixed. Mix considered : "
    (format_location location).

(** The entries [get_metrics] adds to the report when power is measured. *)
Definition operational_keys (measure_power : bool) : list string :=
  if measure_power
  then ["total_operational_emissions";
        "total_operational_abiotic_resources_depletion";
        "total_operational_primary_energy_consumed"]
  else [].

(** Requests to the impact service among some events. *)
Definition request_count (evs : list event) : nat :=
  List.length (filter (fun e => negb (local_event e)) evs).

Definition not_by_model (e : event) : bool :=
  match e with
  | EvImpactByModel _ _ => false
  | _ => true
  end.

Definition not_power_read (e : event) : bool :=
  match e with
  | EvReadPower => false
  | _ => true
  end.

(** Every run of [m] adds to the trace only events that satisfy [p]. *)
Definition emits_only {A : Type} (p : event -> bool) (m : M A) : Prop :=
  forall w : world,
    exists evs : list event,
      events (snd (m w)) = events w ++ evs /\ forallb p evs = true.

(** Every run of [m] adds at most [n] requests to the impact service. *)
Definition requests_at_most {A : Type} (n : nat) (m : M A) : Prop :=
  forall w : world,
    exists evs : list event,
      events (snd (m w)) = events w ++ evs /\ request_count evs <= n.

(** Collector runs and cache reads among some events. *)
Definition collect_count (evs : list event) : nat :=
  List.length (filter (fun e => match e with EvCollect => true | _ => false end)
                 evs).

Definition hardware_read_count (evs : list event) : nat :=
  List.length
    (filter (fun e => match e with EvReadHardware => true | _ => false end)
       evs).

(** Calls of the first version that are not to the SSD endpoint. *)
Definition not_ssd (c : Prototype.call) : bool :=
  match c with
  | Prototype.SsdImpact _ => false
  | _ => true
  end.

(** [report[name][field]]. *)
Definition report_field (report : pyval) (name field : string)
  : result pyval :=
  let? m := getitem report name in
  getitem m field.

(** The description of the carbon-intensity entry for a status of the
    usage location. *)
Definition intensity_description (location : option string) (status : pyval)
  : string :=
  if str_eq status "MODIFY"
  then String.append (mix_description location) warning_modify
  else if str_eq status "SET"
  then String.append (mix_description location) warning_set
  else mix_description location.

(** The entries of the report that every run has, after the calculation
    data and the operational entries. *)
Definition common_keys : list string :=
  ["calculated_emissions"; "start_time"; "end_time"; "embedded_emissions";
   "embedded_abiotic_resources_depletion"; "embedded_primary_energy"].

(** [report["emissions_calculation_data"][name][field]]. *)
Definition calculation_field (report : pyval) (name field : string)
  : result pyval :=
  let? d := getitem report "emissions_calculation_data" in
  let? m := getitem d name in
  getitem m field.

(** [x] is a component impact whose GWP manufacture figure reads as [m]. *)
Definition manufacture_is (float_of_str : string -> option float)
  (x : pyval) (m : float) : Prop :=
  Prototype.gwp_manufacture float_of_str x = Ok m.

(** The test of the comprehension of [get_power_data] on one sample. *)
Definition in_window (float_of_str : string -> option float)
  (start_time end_time : float) (e : pyval) : bool :=
  match host_timestamp float_of_str e with
  | Ok t => ((start_time <=? t) && (t <=? end_time))%float
  | Raise _ => false
  end.

(** [c] is the consumption the loop of [compute_average_consumption]
    reads in the sample [r]. *)
Definition consumption_is (float_of_str : string -> option float)
  (r : pyval) (c : float) : Prop :=
  host_consumption float_of_str r = Ok c.

(** The number of elements of a Python list fits a machine word. *)
Definition list_size_ok (l : list pyval) : Prop :=
  (Z.of_nat (List.length l) < 2 ^ 63)%Z.

(** The length of a list as the float the division converts it to. *)
Definition float_of_length (l : list pyval) : float :=
  of_uint63 (Uint63.of_Z (Z.of_nat (List.length l))).

(** ** Properties of the power samples *)

Lemma of_int_small (z : Z) :
  (0 <= z < 2 ^ 63)%Z ->
  PyFloat.of_int z = Ok (of_uint63 (Uint63.of_Z z)).
Proof.
  intros [Hlo Hhi]. unfold PyFloat.of_int.
  apply Z.leb_le in Hlo. apply Z.ltb_lt in Hhi.
  rewrite Hlo, Hhi. reflexivity.
Qed.

Lemma truediv_int_positive (a : float) (z : Z) :
  (0 < z < 2 ^ 63)%Z ->
  PyFloat.truediv_int a z = Ok (a / of_uint63 (Uint63.of_Z z))%float.
Proof.
  intros [Hlo Hhi]. unfold PyFloat.truediv_int.
  rewrite of_int_small by lia.
  destruct (Z.eqb_spec z 0) as [E | _]; [lia | reflexivity].
Qed.

Section PowerProperties.

Variable float_of_str : string -> option float.

Lemma total_consumption_fold (samples : list pyval) (cs : list float) :
  Forall2 (consumption_is float_of_str) samples cs ->
  forall total : float,
    total_consumption float_of_str total samples
    = Ok (fold_left PrimFloat.add cs total).
Proof.
  induction 1 as [| r c samples cs Hr _ IH]; intros total; simpl.
  - reflexivity.
  - unfold consumption_is in Hr. rewrite Hr. simpl. apply IH.
Qed.

Lemma average_of_samples (samples : list pyval) (cs : list float) :
  samples <> [] ->
  list_size_ok samples ->
  Forall2 (consumption_is float_of_str) samples cs ->
  compute_average_consumption float_of_str samples
  = Ok (fold_left PrimFloat.add cs 0 / float_of_length samples
        / 1000000)%float.
Proof.
  intros Hne Hsize Hcs. unfold compute_average_consumption.
  assert (Hpos : (0 < Z.of_nat (List.length samples))%Z).
  { destruct samples; [congruence | simpl; lia]. }
  apply Z.ltb_lt in Hpos as Hpos'. rewrite Hpos'.
  rewrite (total_consumption_fold samples cs Hcs). simpl.
  rewrite truediv_int_positive by (split; [exact Hpos | exact Hsize]).
  reflexivity.
Qed.

Lemma select_samples_filter (start_time end_time : float)
  (data : list pyval) :
  Forall (fun e => is_ok (host_timestamp float_of_str e) = true) data ->
  select_samples float_of_str start_time end_time data
  = Ok (filter (in_window float_of_str start_time end_time) data).
Proof.
  induction 1 as [| e data He _ IH]; simpl.
  - reflexivity.
  - unfold in_window.
    destruct (host_timestamp float_of_str e) as [t |] eqn:Et;
      [| discriminate].
    simpl. rewrite IH. simpl.
    destruct ((start_time <=? t)%float && (t <=? end_time)%float);
      reflexivity.
Qed.

Lemma select_samples_ok (start_time end_time : float)
  (data res : list pyval) :
  select_samples float_of_str start_time end_time data = Ok res ->
  res = filter (in_window float_of_str start_time end_time) data.
Proof.
  revert res. induction data as [| e data IH]; simpl; intros res H.
  - congruence.
  - unfold in_window at 1.
    destruct (host_timestamp float_of_str e) as [t |]; [| discriminate].
    simpl in H.
    destruct (select_samples float_of_str start_time end_time data)
      as [res' |]; [| discriminate].
    simpl in H. specialize (IH res' eq_refl).
    destruct ((start_time <=? t)%float && (t <=? end_time)%float);
      congruence.
Qed.

Lemma get_power_data_ok (start_time end_time : float) (w w' : world)
  (power_data : pyval) :
  get_power_data float_of_str start_time end_time w = (Ok power_data, w') ->
  exists (data : pyval) (elements : list pyval) (avg : float),
    json_load (power_file w) = Ok data
    /\ iter data = Ok elements
    /\ compute_average_consumption float_of_str
         (filter (in_window float_of_str start_time end_time) elements)
       = Ok avg
    /\ power_data
       = VDict
           ([("raw_data",
              VList (filter (in_window float_of_str start_time end_time)
                       elements));
             ("host_avg_consumption", VFloat avg)]
            ++ (if (end_time - start_time <=? 3600)%float
                then [("warning", VStr low_confidence_warning)]
                else []))
    /\ w' = log EvReadPower w.
Proof.
  unfold get_power_data. intros H. inversion H as [[Hres Hw]]. clear H.
  cbn [power_file log] in Hres.
  destruct (json_load (power_file w)) as [data |] eqn:Hload;
    [| discriminate].
  cbn [rbind] in Hres.
  destruct (iter data) as [elements |] eqn:Hiter; [| discriminate].
  cbn [rbind] in Hres.
  destruct (select_samples float_of_str start_time end_time elements)
    as [res |] eqn:Hsel; [| discriminate].
  apply select_samples_ok in Hsel. subst res. cbn [rbind] in Hres.
  destruct (compute_average_consumption float_of_str
              (filter (in_window float_of_str start_time end_time) elements))
    as [avg |] eqn:Havg; [| discriminate].
  cbn [rbind] in Hres.
  exists data, elements, avg.
  split; [reflexivity |]. split; [exact Hiter |].
  split; [exact Havg |]. split; [| reflexivity].
  destruct (end_time - start_time <=? 3600)%float;
    inversion Hres; reflexivity.
Qed.

End PowerProperties.

(** C4: [compute_average_consumption] is [0.0] on the empty list and, on a
    non-empty list, the sum of the samples' host consumptions (added in
    list order to [0.0]) divided by the number of samples and then by
    [1000000.0]; the list of the two samples with consumptions 1_000_000 and
    3_000_000 gives [2.0]; and the samples [get_power_data] keeps are
    exactly those with [start_time <= timestamp <= end_time], both bounds
    included, in the order of the file. *)
Theorem power_average_and_selection (float_of_str : string -> option float) :
  compute_average_consumption float_of_str [] = Ok 0%float
  /\ (forall (samples : list pyval) (cs : list float),
        samples <> [] ->
        list_size_ok samples ->
        Forall2 (consumption_is float_of_str) samples cs ->
        compute_average_consumption float_of_str samples
        = Ok (fold_left PrimFloat.add cs 0 / float_of_length samples
              / 1000000)%float)
  /\ compute_average_consumption float_of_str
       [VDict [("host", VDict [("consumption", VInt 1000000)])];
        VDict [("host", VDict [("consumption", VInt 3000000)])]]
     = Ok 2%float
  /\ (forall (start_time end_time : float) (w w' : world)
             (power_data : pyval),
        get_power_data float_of_str start_time end_time w
        = (Ok power_data, w') ->
        exists (data : pyval) (elements : list pyval),
          json_load (power_file w) = Ok data
          /\ iter data = Ok elements
          /\ getitem power_data "raw_data"
             = Ok (VList (filter (in_window float_of_str start_time end_time)
                            elements)))
  /\ (forall (start_time end_time t : float) (e : pyval),
        host_timestamp float_of_str e = Ok t ->
        in_window float_of_str start_time end_time e
        = ((start_time <=? t) && (t <=? end_time))%float)
  /\ select_samples float_of_str 1000 2000
       [Sample.power_sample 1000 1000000;
        Sample.power_sample 2000 3000000;
        Sample.power_sample 9000 5000000]
     = Ok [Sample.power_sample 1000 1000000;
           Sample.power_sample 2000 3000000].
Proof.
  split; [reflexivity |].
  split; [apply average_of_samples |].
  split; [vm_compute; reflexivity |].
  split.
  - intros start_time end_time w w' power_data H.
    apply get_power_data_ok in H.
    destruct H as (data & elements & avg & Hload & Hiter & _ & Hpd & _).
    exists data, elements. subst power_data. repeat split; assumption.
  - split; [| vm_compute; reflexivity].
    intros start_time end_time t e Ht. unfold in_window. rewrite Ht.
    reflexivity.
Qed.

(** A run of C4's statement: three samples, two of them in the window. *)
Lemma power_average_and_selection_witness :
  compute_average_consumption Sample.float_of_str
    [Sample.power_sample 1000 1000000; Sample.power_sample 2000 3000000]
  = Ok (fold_left PrimFloat.add [1000000; 3000000] 0
        / float_of_length
            [Sample.power_sample 1000 1000000;
             Sample.power_sample 2000 3000000]
        / 1000000)%float
  /\ exists (data : pyval) (elements : list pyval),
       json_load (power_file (Sample.host (Json Sample.power))) = Ok data
       /\ iter data = Ok elements
       /\ getitem
            (VDict [("raw_data",
                     VList [Sample.power_sample 1000 1000000;
                            Sample.power_sample 2000 3000000]);
                    ("host_avg_consumption", VFloat 2);
                    ("warning", VStr low_confidence_warning)])
            "raw_data"
          = Ok (VList (filter (in_window Sample.float_of_str 1000 4600)
                         elements)).
Proof.
  destruct (power_average_and_selection Sample.float_of_str)
    as (_ & Havg & _ & Hsel & _).
  split.
  - apply Havg.
    + discriminate.
    + unfold list_size_ok. simpl. lia.
    + repeat constructor.
  - apply (Hsel 1000 4600 (Sample.host (Json Sample.power))
             (log EvReadPower (Sample.host (Json Sample.power))))%float.
    vm_compute. reflexivity.
Defined.

(** ** The monad, dictionaries and the world *)

Lemma bind_ok {A B : Type} (m : M A) (k : A -> M B) (w w' : world) (b : B) :
  bind m k w = (Ok b, w') ->
  exists (a : A) (w1 : world), m w = (Ok a, w1) /\ k a w1 = (Ok b, w').
Proof.
  unfold bind. destruct (m w) as [[a | e] w1]; intros H.
  - exists a, w1. split; [reflexivity | exact H].
  - discriminate.
Qed.

Lemma lift_ok {A : Type} (r : result A) (w w' : world) (a : A) :
  lift r w = (Ok a, w') -> r = Ok a /\ w' = w.
Proof. unfold lift. intros H. inversion H. split; reflexivity. Qed.

Lemma ret_ok {A : Type} (x a : A) (w w' : world) :
  ret x w = (Ok a, w') -> a = x /\ w' = w.
Proof. unfold ret. intros H. inversion H. split; reflexivity. Qed.

(** One step of a successful run: a call that changes the world, or a pure
    computation lifted into the monad. *)
Ltac bind_inv H a w1 Ha :=
  apply bind_ok in H; destruct H as (a & w1 & Ha & H); cbv beta zeta in H.

Ltac lift_inv H a Ha :=
  let w1 := fresh "w" in
  let E := fresh "E" in
  apply bind_ok in H; destruct H as (a & w1 & Ha & H);
  apply lift_ok in Ha; destruct Ha as [Ha E]; subst w1;
  cbv beta zeta in H.

Lemma dict_get_set_eq (d : list (string * pyval)) (k : string) (v : pyval) :
  dict_get (dict_set d k v) k = Some v.
Proof.
  induction d as [| [k' v'] d IH]; simpl.
  - rewrite String.eqb_refl. reflexivity.
  - destruct (String.eqb k' k) eqn:E; simpl.
    + rewrite String.eqb_refl. reflexivity.
    + rewrite E. exact IH.
Qed.

Lemma dict_get_set_neq (d : list (string * pyval)) (k k' : string)
  (v : pyval) :
  String.eqb k k' = false ->
  dict_get (dict_set d k v) k' = dict_get d k'.
Proof.
  intros Hk. induction d as [| [k0 v0] d IH]; simpl.
  - rewrite Hk. reflexivity.
  - destruct (String.eqb k0 k) eqn:E; simpl.
    + rewrite Hk. apply String.eqb_eq in E. subst k0. rewrite Hk.
      reflexivity.
    + destruct (String.eqb k0 k'); [reflexivity | exact IH].
Qed.

(** Looks a key up through the assignments made after it was set. *)
Ltac dict_lookup :=
  repeat (rewrite dict_get_set_neq by reflexivity);
  rewrite dict_get_set_eq.

Ltac hardware_cases w :=
  unfold get_hardware_data, bind, try_except, read_hardware_data,
    build_hardware_data, ret;
  match goal with
  | |- context [if ?b then _ else _] => destruct b
  end; cbn;
  repeat match goal with
    | |- context [hardware_cli w ?f] =>
        destruct (hardware_cli w f); cbn
    | |- context [json_load ?f] =>
        destruct (json_load f); cbn
    end.

Lemma get_hardware_data_tick (fetch_hardware : bool) (w : world) :
  get_hardware_data fetch_hardware (tick w)
  = (fst (get_hardware_data fetch_hardware w),
     tick (snd (get_hardware_data fetch_hardware w))).
Proof. hardware_cases w; reflexivity. Qed.

Lemma get_hardware_data_services (fetch_hardware : bool) (w : world) :
  same_services w (snd (get_hardware_data fetch_hardware w))
  /\ clock_reads (snd (get_hardware_data fetch_hardware w)) = clock_reads w.
Proof. unfold same_services. hardware_cases w; tauto. Qed.

Lemma get_hardware_data_events (fetch_hardware : bool) (w : world) :
  exists evs : list event,
    events (snd (get_hardware_data fetch_hardware w)) = events w ++ evs
    /\ forallb local_event evs = true.
Proof.
  hardware_cases w; repeat rewrite <- app_assoc; simpl;
    eexists; (split; [reflexivity | reflexivity]).
Qed.

Lemma get_power_data_file (float_of_str : string -> option float)
  (start_time end_time : float) (w1 w2 : world) :
  power_file w1 = power_file w2 ->
  fst (get_power_data float_of_str start_time end_time w1)
  = fst (get_power_data float_of_str start_time end_time w2).
Proof. unfold get_power_data. cbn. intros ->. reflexivity. Qed.

(** ** What a successful run of [get_metrics] did *)

Section MetricsProperties.

Variable float_of_str : string -> option float.
Variable sort_ram sort_disks : pyval -> result pyval.
Variable seconds_in_one_year : float.

Local Abbreviation run_metrics :=
  (get_metrics float_of_str sort_ram sort_disks seconds_in_one_year).

Lemma generate_machine_configuration_truthy (hardware_data c : pyval) :
  generate_machine_configuration sort_ram sort_disks hardware_data = Ok c ->
  truthy c = true.
Proof.
  unfold generate_machine_configuration. intros H.
  repeat match type of H with
    | rbind ?r _ = Ok _ => destruct r; cbn [rbind] in H; [| discriminate]
    end.
  inversion H. reflexivity.
Qed.

Lemma scaled_ok (x : pyval) (ratio r : float) :
  scaled x ratio = Ok r ->
  exists a : float, as_float x = Ok a /\ r = (a * ratio)%float.
Proof.
  unfold scaled. destruct (as_float x) as [a |]; [| discriminate].
  cbn. intros H. inversion H. exists a. split; reflexivity.
Qed.

Lemma plus_ok (a r : float) (y : pyval) :
  plus a y = Ok r ->
  exists b : float, as_float y = Ok b /\ r = (a + b)%float.
Proof.
  unfold plus. destruct (as_float y) as [b |]; [| discriminate].
  cbn. intros H. inversion H. exists b. split; reflexivity.
Qed.

Lemma figure_of (data v : pyval) (criterion phase : string) (a : float) :
  impact data criterion phase = Ok v ->
  as_float v = Ok a ->
  figure data criterion phase = Ok a.
Proof. unfold figure. intros -> Ha. exact Ha. Qed.

Lemma get_metrics_ok (start_time end_time : float) (verbose : bool)
  (location : option string) (measure_power : bool) (lifetime : float)
  (fetch_hardware : bool) (w w' : world) (report : pyval) :
  run_metrics start_time end_time verbose location measure_power lifetime
    fetch_hardware w = (Ok report, w') ->
  exists (ratio : float)
         (hardware_data host_avg configuration usage data : pyval)
         (w2 : world) (evs : list event),
    window_ratio seconds_in_one_year start_time end_time lifetime = Ok ratio
    /\ fst (get_hardware_data fetch_hardware w) = Ok hardware_data
    /\ (if measure_power then
          exists power_data : pyval,
            fst (get_power_data float_of_str (resolved_start w start_time)
                   (resolved_end w end_time) w) = Ok power_data
            /\ getitem power_data "host_avg_consumption" = Ok host_avg
        else host_avg = VNone)
    /\ generate_machine_configuration sort_ram sort_disks hardware_data
       = Ok configuration
    /\ format_usage_request (resolved_start w start_time)
         (resolved_end w end_time) host_avg location = Ok usage
    /\ impact_by_config w usage configuration = Ok data
    /\ w' = log (EvImpactByConfig usage configuration) w2
    /\ clock_reads w2 = S (clock_reads w)
    /\ events w2 = events w ++ evs
    /\ forallb local_event evs = true
    /\ report_value report "start_time"
       = Ok (VFloat (resolved_start w start_time))
    /\ report_value report "end_time"
       = Ok (VFloat (resolved_end w end_time))
    /\ (exists m u : float,
          figure data "gwp" "manufacture" = Ok m
          /\ figure data "gwp" "use" = Ok u
          /\ report_value report "embedded_emissions"
             = Ok (VFloat (m * ratio))
          /\ report_value report "calculated_emissions"
             = Ok (VFloat (m * ratio + u)))
    /\ (exists m : float,
          figure data "adp" "manufacture" = Ok m
          /\ report_value report "embedded_abiotic_resources_depletion"
             = Ok (VFloat (m * ratio)))
    /\ (exists m : float,
          figure data "pe" "manufacture" = Ok m
          /\ report_value report "embedded_primary_energy"
             = Ok (VFloat (m * ratio)))
    /\ (measure_power = true ->
        report_value report "total_operational_emissions"
        = impact data "gwp" "use"
        /\ report_value report
             "total_operational_abiotic_resources_depletion"
           = impact data "adp" "use"
        /\ report_value report "total_operational_primary_energy_consumed"
           = impact data "pe" "use")
    /\ calculation_value report "average_power_measured" = Ok host_avg.
Proof.
  intros H. unfold get_metrics in H.
  bind_inv H now w0 Hnow.
  lift_inv H ratio Hratio.
  lift_inv H lifetime' Hlifetime.
  bind_inv H hardware_data w1 Hhw.
  bind_inv H measured w2 Hmeasured.
  lift_inv H configuration Hconf.
  lift_inv H usage Husage.
  bind_inv H data w3 Hquery.
  bind_inv H res w4 Hres.
  lift_inv H gm Hgm.
  lift_inv H emb Hemb.
  lift_inv H gu Hgu.
  lift_inv H calc Hcalc.
  lift_inv H gm' Hgm'.
  lift_inv H emb' Hemb'.
  lift_inv H am Ham.
  lift_inv H eadp Headp.
  lift_inv H pm Hpm.
  lift_inv H epe Hepe.
  lift_inv H gf Hgf.
  lift_inv H st Hst.
  apply ret_ok in H. destruct H as [Hrep Hw]. subst w'.
  (* the clock *)
  unfold time_time in Hnow. inversion Hnow. subst w0. clear Hnow.
  fold (now_of w) in *. replace now with (now_of w) in * by assumption.
  fold (resolved_start w start_time) in *.
  fold (resolved_end w end_time) in *.
  (* the inventory *)
  rewrite get_hardware_data_tick in Hhw. inversion Hhw as [[Hhw1 Hw1]].
  clear Hhw. subst w1.
  destruct (get_hardware_data_services fetch_hardware w)
    as [(_ & Hpf & _ & Hic & _) Hreads].
  destruct (get_hardware_data_events fetch_hardware w)
    as (evs1 & Hevs1 & Hloc1).
  set (wh := snd (get_hardware_data fetch_hardware w)) in *.
  (* the service *)
  unfold query_machine_impact_data in Hquery.
  rewrite (generate_machine_configuration_truthy _ _ Hconf) in Hquery.
  inversion Hquery as [[Hdata Hw3]]. clear Hquery.
  assert (Hw4 : w4 = w3).
  { pose proof Hres as Hres'. destruct measure_power.
    - lift_inv Hres' gwp_use Hgwp_use.
      lift_inv Hres' adp_use Hadp_use.
      lift_inv Hres' pe_use Hpe_use.
      apply ret_ok in Hres'. tauto.
    - apply ret_ok in Hres'. tauto. }
  subst w4 w3.
  (* the figures *)
  rewrite Hgm in Hgm'. inversion Hgm'. subst gm'. clear Hgm'.
  rewrite Hemb in Hemb'. inversion Hemb'. subst emb'. clear Hemb'.
  apply scaled_ok in Hemb. destruct Hemb as (m & Hm & ->).
  apply plus_ok in Hcalc. destruct Hcalc as (u & Hu & ->).
  apply scaled_ok in Headp. destruct Headp as (ma & Hma & ->).
  apply scaled_ok in Hepe. destruct Hepe as (mp & Hmp & ->).
  exists ratio, hardware_data, (fst measured), configuration, usage, data.
  (* the measure of power *)
  assert (Hpower :
    (if measure_power then
       exists power_data : pyval,
         fst (get_power_data float_of_str (resolved_start w start_time)
                (resolved_end w end_time) w) = Ok power_data
         /\ getitem power_data "host_avg_consumption" = Ok (fst measured)
     else fst measured = VNone)
    /\ exists evs2 : list event,
         events w2 = events (tick wh) ++ evs2
         /\ forallb local_event evs2 = true
         /\ impact_by_config w2 = impact_by_config (tick wh)
         /\ clock_reads w2 = clock_reads (tick wh)).
  { destruct measure_power.
    - bind_inv Hmeasured power_data w5 Hpd.
      lift_inv Hmeasured avg Havg.
      lift_inv Hmeasured has_warning Hwarn.
      assert (Hw2 : w2 = w5).
      { destruct has_warning.
        - lift_inv Hmeasured warning Hwarning.
          apply ret_ok in Hmeasured. tauto.
        - apply ret_ok in Hmeasured. tauto. }
      assert (Havg' : fst measured = avg).
      { destruct has_warning.
        - lift_inv Hmeasured warning Hwarning.
          apply ret_ok in Hmeasured. destruct Hmeasured as [-> _].
          reflexivity.
        - apply ret_ok in Hmeasured. destruct Hmeasured as [-> _].
          reflexivity. }
      subst w5. rewrite Havg'. split.
      + exists power_data. split; [| exact Havg].
        rewrite (get_power_data_file float_of_str _ _ w (tick wh))
          by (symmetry; exact Hpf).
        rewrite Hpd. reflexivity.
      + apply get_power_data_ok in Hpd.
        destruct Hpd as (_ & _ & _ & _ & _ & _ & _ & Hw5).
        exists [EvReadPower]. subst w2. repeat split; reflexivity.
    - apply ret_ok in Hmeasured. destruct Hmeasured as [-> ->]. split.
      + reflexivity.
      + exists []. rewrite app_nil_r. repeat split; reflexivity. }
  destruct Hpower as (Hpower & evs2 & Hevs2 & Hloc2 & Hic2 & Hreads2).
  exists w2, (evs1 ++ evs2).
  split; [exact Hratio |]. split; [exact Hhw1 |].
  split; [exact Hpower |]. split; [exact Hconf |].
  split; [exact Husage |].
  split; [rewrite <- Hic; rewrite <- Hdata; rewrite Hic2; reflexivity |].
  split; [reflexivity |].
  split; [rewrite Hreads2; cbn; f_equal; exact Hreads |].
  split.
  { rewrite Hevs2. cbn. fold wh. rewrite Hevs1. symmetry. apply app_assoc. }
  split; [rewrite forallb_app, Hloc1, Hloc2; reflexivity |].
  subst report. unfold report_value, calculation_value, getitem.
  split; [dict_lookup; reflexivity |].
  split; [dict_lookup; reflexivity |].
  split.
  { exists m, u.
    split; [exact (figure_of _ _ _ _ _ Hgm Hm) |].
    split; [exact (figure_of _ _ _ _ _ Hgu Hu) |].
    split; dict_lookup; reflexivity. }
  split.
  { exists ma. split; [exact (figure_of _ _ _ _ _ Ham Hma) |].
    dict_lookup. reflexivity. }
  split.
  { exists mp. split; [exact (figure_of _ _ _ _ _ Hpm Hmp) |].
    dict_lookup. reflexivity. }
  split.
  { intros ->.
    lift_inv Hres gwp_use Hgwp_use.
    lift_inv Hres adp_use Hadp_use.
    lift_inv Hres pe_use Hpe_use.
    apply ret_ok in Hres. destruct Hres as [-> _].
    rewrite Hgwp_use, Hadp_use, Hpe_use.
    split; [| split]; dict_lookup; reflexivity. }
  dict_lookup. cbn [rbind].
  destruct verbose; reflexivity.
Qed.

End MetricsProperties.

Lemma format_usage_request_ok (start_time end_time : float)
  (host_avg_consumption : pyval) (location : option string) (usage : pyval) :
  format_usage_request start_time end_time host_avg_consumption location
  = Ok usage ->
  getitem usage "hours_use_time"
  = Ok (VFloat ((end_time - start_time) / 3600))
  /\ contains usage "usage_location" = Ok (location_given location)
  /\ (location_given location = true ->
      exists s : string,
        location = Some s /\ getitem usage "usage_location" = Ok (VStr s))
  /\ contains usage "hours_electrical_consumption"
     = Ok (truthy host_avg_consumption)
  /\ (truthy host_avg_consumption = true ->
      getitem usage "hours_electrical_consumption" = Ok host_avg_consumption).
Proof.
  unfold format_usage_request.
  change (PyFloat.truediv (end_time - start_time) 3600)
    with (Ok ((end_time - start_time) / 3600)%float).
  cbn [rbind]. intros H. inversion H as [Husage]. clear H Husage.
  destruct location as [s |]; cbn [location_given location_value].
  - destruct (negb (s =? EmptyString)), (truthy host_avg_consumption);
      (split; [reflexivity |]); (split; [reflexivity |]);
      (split; [intros Hs; try discriminate; exists s; split; reflexivity |]);
      (split; [reflexivity |]); intros Ht; try discriminate; reflexivity.
  - destruct (truthy host_avg_consumption);
      (split; [reflexivity |]); (split; [reflexivity |]);
      (split; [discriminate |]);
      (split; [reflexivity |]); intros Ht; try discriminate; reflexivity.
Qed.

(** C1: in the report of a successful [get_metrics], the embedded values are
    the manufacture figures of the impact service times the ratio of the
    window, the calculated emissions are the embedded emissions plus the
    GWP use figure (one float product and one float sum, nothing else), and
    with [measure_power] the operational values are the use figures as the
    service gave them. *)
Theorem report_values_from_figures
  (float_of_str : string -> option float)
  (sort_ram sort_disks : pyval -> result pyval)
  (seconds_in_one_year start_time end_time : float) (verbose : bool)
  (location : option string) (measure_power : bool) (lifetime : float)
  (fetch_hardware : bool) (w w' : world) (report : pyval) :
  get_metrics float_of_str sort_ram sort_disks seconds_in_one_year
    start_time end_time verbose location measure_power lifetime
    fetch_hardware w = (Ok report, w') ->
  exists (ratio : float) (usage configuration data : pyval),
    window_ratio seconds_in_one_year start_time end_time lifetime = Ok ratio
    /\ In (EvImpactByConfig usage configuration) (events w')
    /\ impact_by_config w usage configuration = Ok data
    /\ (exists manufacture use : float,
          figure data "gwp" "manufacture" = Ok manufacture
          /\ figure data "gwp" "use" = Ok use
          /\ report_value report "embedded_emissions"
             = Ok (VFloat (manufacture * ratio))
          /\ report_value report "calculated_emissions"
             = Ok (VFloat (manufacture * ratio + use)))
    /\ (exists manufacture : float,
          figure data "adp" "manufacture" = Ok manufacture
          /\ report_value report "embedded_abiotic_resources_depletion"
             = Ok (VFloat (manufacture * ratio)))
    /\ (exists manufacture : float,
          figure data "pe" "manufacture" = Ok manufacture
          /\ report_value report "embedded_primary_energy"
             = Ok (VFloat (manufacture * ratio)))
    /\ (measure_power = true ->
        report_value report "total_operational_emissions"
        = impact data "gwp" "use"
        /\ report_value report "total_operational_abiotic_resources_depletion"
           = impact data "adp" "use"
        /\ report_value report "total_operational_primary_energy_consumed"
           = impact data "pe" "use").
Proof.
  intros H. apply get_metrics_ok in H.
  destruct H as (ratio & hardware_data & host_avg & configuration & usage
                 & data & w2 & evs & Hratio & _ & _ & _ & _ & Hdata & Hw'
                 & _ & _ & _ & _ & _ & Hgwp & Hadp & Hpe & Hop & _).
  exists ratio, usage, configuration, data.
  split; [exact Hratio |].
  split; [subst w'; cbn; apply in_or_app; right; left; reflexivity |].
  split; [exact Hdata |].
  split; [exact Hgwp |]. split; [exact Hadp |]. split; [exact Hpe |].
  exact Hop.
Qed.

(** A run of C1's statement: one hour on the sample host, power measured. *)
Lemma report_values_from_figures_witness :
  exists (ratio : float) (usage configuration data : pyval),
    window_ratio Sample.seconds_in_one_year 1000 4600 5 = Ok ratio
    /\ In (EvImpactByConfig usage configuration)
         (events (snd (Sample.get_metrics 1000 4600 false None true 5 false
                         (Sample.host (Json Sample.power)))))
    /\ impact_by_config (Sample.host (Json Sample.power)) usage configuration
       = Ok data
    /\ (exists manufacture use : float,
          figure data "gwp" "manufacture" = Ok manufacture
          /\ figure data "gwp" "use" = Ok use
          /\ report_value
               (Sample.report_of 1000 4600 None 5 (Json Sample.power))
               "embedded_emissions"
             = Ok (VFloat (manufacture * ratio))
          /\ report_value
               (Sample.report_of 1000 4600 None 5 (Json Sample.power))
               "calculated_emissions"
             = Ok (VFloat (manufacture * ratio + use)))
    /\ report_value (Sample.report_of 1000 4600 None 5 (Json Sample.power))
         "total_operational_emissions"
       = impact data "gwp" "use".
Proof.
  destruct (report_values_from_figures Sample.float_of_str Sample.sort_ram
              Sample.sort_disks Sample.seconds_in_one_year 1000 4600 false
              None true 5 false (Sample.host (Json Sample.power))
              (snd (Sample.get_metrics 1000 4600 false None true 5 false
                      (Sample.host (Json Sample.power))))
              (Sample.report_of 1000 4600 None 5 (Json Sample.power)))
    as (ratio & usage & configuration & data & Hratio & Hin & Hdata & Hgwp
        & _ & _ & Hop).
  - vm_compute. reflexivity.
  - exists ratio, usage, configuration, data.
    split; [exact Hratio |]. split; [exact Hin |]. split; [exact Hdata |].
    split; [exact Hgwp |]. exact (proj1 (Hop eq_refl)).
Defined.

Lemma window_ratio_unset (seconds_in_one_year start_time end_time
  lifetime : float) :
  (start_time =? 0)%float = true \/ (end_time =? 0)%float = true ->
  window_ratio seconds_in_one_year start_time end_time lifetime = Ok 1%float.
Proof.
  unfold window_ratio, PyFloat.truthy.
  intros [H | H]; rewrite H; cbn; [| rewrite andb_false_r]; reflexivity.
Qed.

(** C3: [get_metrics] reads the clock once.  A bound that was passed as zero
    is replaced by that reading, less 3600 seconds for the start; so with
    both bounds zero the report's window is [[now - 3600, now]].  The ratio
    is computed from the bounds as they were passed: whenever one of them is
    zero it is [1.0], and the embedded values of the report are the
    manufacture figures times [1.0]. *)
Theorem unset_bounds_ratio_and_window
  (float_of_str : string -> option float)
  (sort_ram sort_disks : pyval -> result pyval)
  (seconds_in_one_year start_time end_time : float) (verbose : bool)
  (location : option string) (measure_power : bool) (lifetime : float)
  (fetch_hardware : bool) (w w' : world) (report : pyval) :
  get_metrics float_of_str sort_ram sort_disks seconds_in_one_year
    start_time end_time verbose location measure_power lifetime
    fetch_hardware w = (Ok report, w') ->
  clock_reads w' = S (clock_reads w)
  /\ ((start_time =? 0)%float = true ->
      report_value report "start_time" = Ok (VFloat (now_of w - 3600)))
  /\ ((end_time =? 0)%float = true ->
      report_value report "end_time" = Ok (VFloat (now_of w)))
  /\ ((start_time =? 0)%float = true \/ (end_time =? 0)%float = true ->
      window_ratio seconds_in_one_year start_time end_time lifetime
      = Ok 1%float
      /\ exists (usage configuration data : pyval) (gwp adp pe : float),
           impact_by_config w usage configuration = Ok data
           /\ figure data "gwp" "manufacture" = Ok gwp
           /\ figure data "adp" "manufacture" = Ok adp
           /\ figure data "pe" "manufacture" = Ok pe
           /\ report_value report "embedded_emissions"
              = Ok (VFloat (gwp * 1))
           /\ report_value report "embedded_abiotic_resources_depletion"
              = Ok (VFloat (adp * 1))
           /\ report_value report "embedded_primary_energy"
              = Ok (VFloat (pe * 1))).
Proof.
  intros H. apply get_metrics_ok in H.
  destruct H as (ratio & hardware_data & host_avg & configuration & usage
                 & data & w2 & evs & Hratio & _ & _ & _ & _ & Hdata & Hw'
                 & Hreads & _ & _ & Hstart & Hend & Hgwp & Hadp & Hpe & _).
  split; [subst w'; exact Hreads |].
  split.
  { intros Hz. rewrite Hstart. unfold resolved_start, resolve_start.
    rewrite Hz. reflexivity. }
  split.
  { intros Hz. rewrite Hend. unfold resolved_end, resolve_end.
    rewrite Hz. reflexivity. }
  intros Hz. pose proof (window_ratio_unset seconds_in_one_year _ _ lifetime Hz)
    as Hone.
  split; [exact Hone |].
  rewrite Hone in Hratio. inversion Hratio. subst ratio.
  destruct Hgwp as (gwp & _ & Hg & _ & Hg' & _).
  destruct Hadp as (adp & Ha & Ha').
  destruct Hpe as (pe & Hp & Hp').
  exists usage, configuration, data, gwp, adp, pe.
  repeat (split; [assumption |]). assumption.
Qed.

(** A run of C3's statement: both bounds zero on the sample host. *)
Lemma unset_bounds_ratio_and_window_witness :
  clock_reads
    (snd (Sample.get_metrics 0 0 false None true 5 false
            (Sample.host (Json Sample.power))))
  = S (clock_reads (Sample.host (Json Sample.power)))
  /\ report_value (Sample.report_of 0 0 None 5 (Json Sample.power)) "start_time"
     = Ok (VFloat (now_of (Sample.host (Json Sample.power)) - 3600))
  /\ report_value (Sample.report_of 0 0 None 5 (Json Sample.power)) "end_time"
     = Ok (VFloat (now_of (Sample.host (Json Sample.power))))
  /\ window_ratio Sample.seconds_in_one_year 0 0 5 = Ok 1%float.
Proof.
  destruct (unset_bounds_ratio_and_window Sample.float_of_str Sample.sort_ram
              Sample.sort_disks Sample.seconds_in_one_year 0 0 false None
              true 5 false (Sample.host (Json Sample.power))
              (snd (Sample.get_metrics 0 0 false None true 5 false
                      (Sample.host (Json Sample.power))))
              (Sample.report_of 0 0 None 5 (Json Sample.power)))
    as (Hreads & Hstart & Hend & Hratio).
  - vm_compute. reflexivity.
  - split; [exact Hreads |]. split; [exact (Hstart eq_refl) |].
    split; [exact (Hend eq_refl) |].
    exact (proj1 (Hratio (or_introl eq_refl))).
Defined.

(** C6 as stated fails: power is measured, the window holds no sample, the
    measured average is [0.0], and the usage request goes out without
    [hours_electrical_consumption]; and a location passed as the empty
    string leaves [usage_location] out. *)
Lemma usage_request_without_measured_power :
  is_ok (fst (Sample.get_metrics 1000 4600 false (Some EmptyString) true 5
                false (Sample.host (Json (VList []))))) = true
  /\ calculation_value
       (Sample.report_of 1000 4600 (Some EmptyString) 5 (Json (VList [])))
       "average_power_measured" = Ok (VFloat 0)
  /\ events (snd (Sample.get_metrics 1000 4600 false (Some EmptyString) true
                    5 false (Sample.host (Json (VList [])))))
     = [EvReadHardware; EvReadPower;
        EvImpactByConfig (VDict [("hours_use_time", VFloat 1)])
          (VDict [("cpu", VDict [("units", VInt 2);
                                 ("core_units", VInt 8);
                                 ("family", VStr "x")]);
                  ("ram", VList [VDict [("capacity", VInt 16)]]);
                  ("disk", VList [VDict [("type", VStr "ssd")]]);
                  ("motherboard", VDict [("units", VInt 1)]);
                  ("power_supply", VDict [("units", VInt 1)])])]
  /\ ~ (exists (usage configuration v : pyval),
          In (EvImpactByConfig usage configuration)
            (events (snd (Sample.get_metrics 1000 4600 false
                            (Some EmptyString) true 5 false
                            (Sample.host (Json (VList []))))))
          /\ (getitem usage "hours_electrical_consumption" = Ok v
              \/ getitem usage "usage_location" = Ok v)).
Proof.
  split; [vm_compute; reflexivity |].
  split; [vm_compute; reflexivity |].
  split; [vm_compute; reflexivity |].
  intros (usage & configuration & v & Hin & Hget).
  vm_compute in Hin.
  destruct Hin as [Hin | [Hin | [Hin | []]]]; try discriminate.
  inversion Hin. subst usage.
  destruct Hget as [Hget | Hget]; vm_compute in Hget; discriminate.
Qed.

(** C6, amended: the usage request sent to the impact service carries
    [hours_use_time], the length of the resolved window divided by 3600;
    [usage_location] exactly when the location is a non-empty string; and
    [hours_electrical_consumption], the measured average, exactly when that
    average is true for Python, that is when power was measured and the
    average is not zero. *)
Theorem usage_request_sent
  (float_of_str : string -> option float)
  (sort_ram sort_disks : pyval -> result pyval)
  (seconds_in_one_year start_time end_time : float) (verbose : bool)
  (location : option string) (measure_power : bool) (lifetime : float)
  (fetch_hardware : bool) (w w' : world) (report : pyval) :
  get_metrics float_of_str sort_ram sort_disks seconds_in_one_year
    start_time end_time verbose location measure_power lifetime
    fetch_hardware w = (Ok report, w') ->
  exists (usage configuration host_avg : pyval) (evs : list event),
    events w' = events w ++ evs ++ [EvImpactByConfig usage configuration]
    /\ forallb local_event evs = true
    /\ getitem usage "hours_use_time"
       = Ok (VFloat ((resolved_end w end_time - resolved_start w start_time)
                     / 3600))
    /\ contains usage "usage_location" = Ok (location_given location)
    /\ (location_given location = true ->
        exists s : string,
          location = Some s /\ getitem usage "usage_location" = Ok (VStr s))
    /\ calculation_value report "average_power_measured" = Ok host_avg
    /\ (if measure_power then
          exists (data : pyval) (elements : list pyval) (avg : float),
            json_load (power_file w) = Ok data
            /\ iter data = Ok elements
            /\ compute_average_consumption float_of_str
                 (filter (in_window float_of_str
                            (resolved_start w start_time)
                            (resolved_end w end_time)) elements)
               = Ok avg
            /\ host_avg = VFloat avg
        else host_avg = VNone)
    /\ contains usage "hours_electrical_consumption" = Ok (truthy host_avg)
    /\ (truthy host_avg = true ->
        getitem usage "hours_electrical_consumption" = Ok host_avg).
Proof.
  intros H. apply get_metrics_ok in H.
  destruct H as (ratio & hardware_data & host_avg & configuration & usage
                 & data & w2 & evs & _ & _ & Hpower & _ & Husage & _ & Hw'
                 & _ & Hevs & Hlocal & _ & _ & _ & _ & _ & _ & Havg).
  apply format_usage_request_ok in Husage.
  destruct Husage as (Hhours & Hloc & Hloc' & Hcons & Hcons').
  exists usage, configuration, host_avg, evs.
  split; [subst w'; cbn; rewrite Hevs; symmetry; apply app_assoc |].
  split; [exact Hlocal |]. split; [exact Hhours |].
  split; [exact Hloc |]. split; [exact Hloc' |]. split; [exact Havg |].
  split; [| split; assumption].
  destruct measure_power; [| exact Hpower].
  destruct Hpower as (power_data & Hpd & Hget).
  destruct (get_power_data float_of_str (resolved_start w start_time)
              (resolved_end w end_time) w) as [r wp] eqn:Hrun.
  cbn in Hpd. subst r. apply get_power_data_ok in Hrun.
  destruct Hrun as (pdata & elements & avg & Hload & Hiter & Hav & Hshape & _).
  exists pdata, elements, avg.
  split; [exact Hload |]. split; [exact Hiter |]. split; [exact Hav |].
  subst power_data. cbn in Hget. inversion Hget. reflexivity.
Qed.

(** A run of C6's amended statement: two samples in the window, a location,
    and a request that carries both optional keys. *)
Lemma usage_request_sent_witness :
  exists (usage configuration : pyval) (evs : list event),
    events (snd (Sample.get_metrics 1000 4600 false (Some "FRA") true 5
                   false (Sample.host (Json Sample.power))))
    = events (Sample.host (Json Sample.power)) ++ evs
      ++ [EvImpactByConfig usage configuration]
    /\ getitem usage "hours_use_time" = Ok (VFloat 1)
    /\ getitem usage "usage_location" = Ok (VStr "FRA")
    /\ getitem usage "hours_electrical_consumption" = Ok (VFloat 2).
Proof.
  destruct (usage_request_sent Sample.float_of_str Sample.sort_ram
              Sample.sort_disks Sample.seconds_in_one_year 1000 4600 false
              (Some "FRA") true 5 false (Sample.host (Json Sample.power))
              (snd (Sample.get_metrics 1000 4600 false (Some "FRA") true 5
                      false (Sample.host (Json Sample.power))))
              (Sample.report_of 1000 4600 (Some "FRA") 5
                 (Json Sample.power)))
    as (usage & configuration & host_avg & evs & Hevents & _ & Hhours & _
        & Hloc & Havg & _ & _ & Hcons).
  - vm_compute. reflexivity.
  - exists usage, configuration, evs.
    split; [exact Hevents |]. split; [exact Hhours |].
    destruct (Hloc eq_refl) as (s & Hs & Hget).
    split; [injection Hs as <-; exact Hget |].
    vm_compute in Havg. injection Havg as <-. exact (Hcons eq_refl).
Defined.

(** C2: the code computes the ratio with the lifetime it was given, before
    it grows the lifetime, and nothing reads the grown lifetime.  On the
    sample host, a window of two years with a lifetime of one year: both
    bounds are non-zero, the window is at least the lifetime, the lifetime
    is grown to [2.0] years, the ratio over the grown lifetime would be
    [1.0], and the ratio used is [2.0]: the report shows 970 * 2 = 1940 as
    embedded emissions. *)
Theorem ratio_ignores_grown_lifetime :
  PyFloat.truthy 1 = true
  /\ PyFloat.truthy 63072001 = true
  /\ (1 * Sample.seconds_in_one_year <=? 63072001 - 1)%float = true
  /\ grow_lifetime Sample.seconds_in_one_year 1 63072001 1 = Ok 2%float
  /\ PyFloat.truediv (63072001 - 1) (2 * Sample.seconds_in_one_year)
     = Ok 1%float
  /\ window_ratio Sample.seconds_in_one_year 1 63072001 1 = Ok 2%float
  /\ figure Sample.impact_report "gwp" "manufacture" = Ok 970%float
  /\ report_value (Sample.report_of 1 63072001 None 1 (Json Sample.power))
       "embedded_emissions"
     = Ok (VFloat 1940).
Proof. repeat split; vm_compute; reflexivity. Qed.

(** C5: the test of [get_power_data] is [end_time - start_time <= 3600], so
    a window of exactly 3600 seconds gets the warning whose text says the
    window is lower than one hour.  On the sample host: the warning is there
    for 3600 seconds, it is there for 3599 seconds, and it is absent for
    3601 seconds. *)
Theorem warning_at_exactly_one_hour :
  (4600 - 1000 =? 3600)%float = true
  /\ getitem (Sample.power_data_of 1000 4600) "warning"
     = Ok (VStr low_confidence_warning)
  /\ getitem (Sample.power_data_of 1000 4599) "warning"
     = Ok (VStr low_confidence_warning)
  /\ contains (Sample.power_data_of 1000 4601) "warning" = Ok false.
Proof. repeat split; vm_compute; reflexivity. Qed.

(** The warning of [get_power_data] follows the test of the source. *)
Lemma get_power_data_warning (float_of_str : string -> option float)
  (start_time end_time : float) (w w' : world) (power_data : pyval) :
  get_power_data float_of_str start_time end_time w = (Ok power_data, w') ->
  contains power_data "warning" = Ok (end_time - start_time <=? 3600)%float.
Proof.
  intros H. apply get_power_data_ok in H.
  destruct H as (data & elements & avg & _ & _ & _ & -> & _).
  destruct (end_time - start_time <=? 3600)%float; reflexivity.
Qed.

(** ** The configuration built from the inventory *)

Section ConfigurationProperties.

Variable sort_ram sort_disks : pyval -> result pyval.

Local Abbreviation configuration_of :=
  (generate_machine_configuration sort_ram sort_disks).

Lemma generate_machine_configuration_ok (hardware_data configuration : pyval) :
  configuration_of hardware_data = Ok configuration ->
  exists (inventory : list (string * pyval)) (first : pyval)
         (others : list pyval) (core_units family rams ram disks disk : pyval),
    hardware_data = VDict inventory
    /\ dict_get inventory "cpus" = Some (VList (first :: others))
    /\ getitem first "core_units" = Ok core_units
    /\ getitem first "family" = Ok family
    /\ dict_get inventory "rams" = Some rams
    /\ sort_ram rams = Ok ram
    /\ dict_get inventory "disks" = Some disks
    /\ sort_disks disks = Ok disk
    /\ configuration
       = VDict
           [("cpu",
             VDict [("units", VInt (Z.of_nat (List.length (first :: others))));
                    ("core_units", core_units);
                    ("family", family)]);
            ("ram", ram);
            ("disk", disk);
            ("motherboard",
             match dict_get inventory "mother_board" with
             | Some v => v
             | None => VDict [("units", VInt 1)]
             end);
            ("power_supply",
             match dict_get inventory "power_supply" with
             | Some v => v
             | None => VDict [("units", VInt 1)]
             end)].
Proof.
  unfold generate_machine_configuration. intros H.
  destruct hardware_data as [| | | | | | inventory];
    try (cbn [getitem rbind] in H; discriminate).
  cbn [getitem contains] in H. unfold dict_has in H.
  destruct (dict_get inventory "cpus") as [cpus |] eqn:Hcpus;
    cbn [rbind] in H; [| discriminate].
  destruct cpus as [| | | | s | l | d];
    try (cbn [len getitem0 rbind] in H; discriminate).
  - destruct s; cbn [len getitem0 getitem rbind] in H; discriminate.
  - destruct l as [| first others];
      cbn [len getitem0 rbind] in H; [discriminate |].
    destruct (getitem first "core_units") as [core_units |] eqn:Hcore;
      cbn [rbind] in H; [| discriminate].
    destruct (getitem first "family") as [family |] eqn:Hfamily;
      cbn [rbind] in H; [| discriminate].
    destruct (dict_get inventory "rams") as [rams |] eqn:Hrams;
      cbn [rbind] in H; [| discriminate].
    destruct (sort_ram rams) as [ram |] eqn:Hram;
      cbn [rbind] in H; [| discriminate].
    destruct (dict_get inventory "disks") as [disks |] eqn:Hdisks;
      cbn [rbind] in H; [| discriminate].
    destruct (sort_disks disks) as [disk |] eqn:Hdisk;
      cbn [rbind] in H; [| discriminate].
    exists inventory, first, others, core_units, family, rams, ram, disks,
      disk.
    repeat (split; [first [reflexivity | assumption] |]).
    destruct (dict_get inventory "mother_board"),
      (dict_get inventory "power_supply");
      cbn [rbind] in H; inversion H; reflexivity.
Qed.

Lemma generate_machine_configuration_total
  (inventory : list (string * pyval)) (first : pyval) (others : list pyval)
  (core_units family rams ram disks disk : pyval) :
  dict_get inventory "cpus" = Some (VList (first :: others)) ->
  getitem first "core_units" = Ok core_units ->
  getitem first "family" = Ok family ->
  dict_get inventory "rams" = Some rams ->
  sort_ram rams = Ok ram ->
  dict_get inventory "disks" = Some disks ->
  sort_disks disks = Ok disk ->
  is_ok (configuration_of (VDict inventory)) = true.
Proof.
  intros Hcpus Hcore Hfamily Hrams Hram Hdisks Hdisk.
  unfold generate_machine_configuration.
  cbn [getitem contains]. unfold dict_has.
  rewrite Hcpus. cbn [rbind len getitem0]. rewrite Hcore, Hfamily.
  cbn [rbind]. rewrite Hrams. cbn [rbind]. rewrite Hram. cbn [rbind].
  rewrite Hdisks. cbn [rbind]. rewrite Hdisk. cbn [rbind].
  destruct (dict_get inventory "mother_board"),
    (dict_get inventory "power_supply"); reflexivity.
Qed.

End ConfigurationProperties.

(** C7: when [generate_machine_configuration] returns, the inventory has a
    non-empty list of CPUs; [cpu.units] is the length of that list and
    [cpu.core_units] and [cpu.family] are those of the first CPU; the
    [motherboard] and [power_supply] entries are those of the inventory
    when it has the keys [mother_board] and [power_supply], and [{units: 1}]
    when it has not.  It does return on an inventory whose first CPU has
    both fields and whose RAM and disks are sorted without error.  For two
    identical CPUs with 8 cores of family ["x"] it gives units 2, 8 cores
    and family ["x"]. *)
Theorem machine_configuration_of_inventory
  (sort_ram sort_disks : pyval -> result pyval) :
  (forall hardware_data configuration : pyval,
      generate_machine_configuration sort_ram sort_disks hardware_data
      = Ok configuration ->
      exists (inventory : list (string * pyval)) (first : pyval)
             (others : list pyval) (cpu : pyval),
        hardware_data = VDict inventory
        /\ dict_get inventory "cpus" = Some (VList (first :: others))
        /\ getitem configuration "cpu" = Ok cpu
        /\ getitem cpu "units"
           = Ok (VInt (Z.of_nat (List.length (first :: others))))
        /\ getitem cpu "core_units" = getitem first "core_units"
        /\ getitem cpu "family" = getitem first "family"
        /\ getitem configuration "motherboard"
           = Ok match dict_get inventory "mother_board" with
                | Some v => v
                | None => VDict [("units", VInt 1)]
                end
        /\ getitem configuration "power_supply"
           = Ok match dict_get inventory "power_supply" with
                | Some v => v
                | None => VDict [("units", VInt 1)]
                end)
  /\ (forall (inventory : list (string * pyval)) (first : pyval)
             (others : list pyval)
             (core_units family rams ram disks disk : pyval),
        dict_get inventory "cpus" = Some (VList (first :: others)) ->
        getitem first "core_units" = Ok core_units ->
        getitem first "family" = Ok family ->
        dict_get inventory "rams" = Some rams ->
        sort_ram rams = Ok ram ->
        dict_get inventory "disks" = Some disks ->
        sort_disks disks = Ok disk ->
        is_ok (generate_machine_configuration sort_ram sort_disks
                 (VDict inventory)) = true)
  /\ (forall rams ram disks disk : pyval,
        sort_ram rams = Ok ram ->
        sort_disks disks = Ok disk ->
        generate_machine_configuration sort_ram sort_disks
          (VDict [("cpus", VList [Sample.cpu; Sample.cpu]);
                  ("rams", rams);
                  ("disks", disks)])
        = Ok (VDict [("cpu", VDict [("units", VInt 2);
                                    ("core_units", VInt 8);
                                    ("family", VStr "x")]);
                     ("ram", ram);
                     ("disk", disk);
                     ("motherboard", VDict [("units", VInt 1)]);
                     ("power_supply", VDict [("units", VInt 1)])])).
Proof.
  split; [| split].
  - intros hardware_data configuration H.
    apply generate_machine_configuration_ok in H.
    destruct H as (inventory & first & others & core_units & family & rams
                   & ram & disks & disk & Hhw & Hcpus & Hcore & Hfamily & _
                   & _ & _ & _ & Hconf).
    exists inventory, first, others,
      (VDict [("units", VInt (Z.of_nat (List.length (first :: others))));
              ("core_units", core_units);
              ("family", family)]).
    subst configuration. rewrite Hcore, Hfamily.
    repeat (split; [first [reflexivity | assumption] |]). reflexivity.
  - apply generate_machine_configuration_total.
  - intros rams ram disks disk Hram Hdisk.
    unfold generate_machine_configuration. cbn. rewrite Hram. cbn.
    rewrite Hdisk. reflexivity.
Qed.

(** A run of C7's statement: the inventory of the sample host. *)
Lemma machine_configuration_of_inventory_witness :
  (exists (inventory : list (string * pyval)) (first : pyval)
          (others : list pyval) (cpu : pyval),
      Sample.hardware = VDict inventory
      /\ dict_get inventory "cpus" = Some (VList (first :: others))
      /\ getitem cpu "units"
         = Ok (VInt (Z.of_nat (List.length (first :: others))))
      /\ getitem cpu "core_units" = getitem first "core_units"
      /\ getitem cpu "family" = getitem first "family")
  /\ generate_machine_configuration Sample.sort_ram Sample.sort_disks
       (VDict [("cpus", VList [Sample.cpu; Sample.cpu]);
               ("rams", VList []);
               ("disks", VList [])])
     = Ok (VDict [("cpu", VDict [("units", VInt 2);
                                 ("core_units", VInt 8);
                                 ("family", VStr "x")]);
                  ("ram", VList []);
                  ("disk", VList []);
                  ("motherboard", VDict [("units", VInt 1)]);
                  ("power_supply", VDict [("units", VInt 1)])]).
Proof.
  destruct (machine_configuration_of_inventory Sample.sort_ram
              Sample.sort_disks) as (Hok & _ & Htwo).
  split.
  - destruct (Hok Sample.hardware
                (VDict [("cpu", VDict [("units", VInt 2);
                                       ("core_units", VInt 8);
                                       ("family", VStr "x")]);
                        ("ram", VList [VDict [("capacity", VInt 16)]]);
                        ("disk", VList [VDict [("type", VStr "ssd")]]);
                        ("motherboard", VDict [("units", VInt 1)]);
                        ("power_supply", VDict [("units", VInt 1)])])
                eq_refl)
      as (inventory & first & others & cpu & Hhw & Hcpus & _ & Hunits
          & Hcore & Hfamily & _).
    exists inventory, first, others, cpu.
    split; [exact Hhw |]. split; [exact Hcpus |]. split; [exact Hunits |].
    split; [exact Hcore | exact Hfamily].
  - apply Htwo; reflexivity.
Defined.

(** ** The hardware cache *)

Lemma get_hardware_data_fetch (w : world) (f : file) :
  hardware_cli w (hardware_file w) = Ok f ->
  exists evs : list event,
    events (snd (get_hardware_data true w))
    = events w ++ EvCollect :: EvReadHardware :: evs
    /\ (forall d : pyval,
          json_load f = Ok d ->
          get_hardware_data true w
          = (Ok d, log EvReadHardware (set_hardware_file f (log EvCollect w)))).
Proof.
  intros Hcli.
  unfold get_hardware_data, bind, try_except, read_hardware_data,
    build_hardware_data, ret.
  cbn. rewrite Hcli. cbn.
  destruct (json_load f) as [d |] eqn:Hload; cbn.
  - exists []. rewrite <- app_assoc. split; [reflexivity |].
    intros d' Hd'. inversion Hd'. reflexivity.
  - destruct (hardware_cli w f) as [f' |]; cbn.
    + exists [EvCollect; EvReadHardware].
      repeat rewrite <- app_assoc. split; [reflexivity | discriminate].
    + exists [EvCollect].
      repeat rewrite <- app_assoc. split; [reflexivity | discriminate].
Qed.

(** C8: with [fetch_hardware] the collector runs before the cache is read
    (and a collector that cannot be started fails the call).  Without it the
    cache is read first: a cache that loads is returned, with nothing else
    done; a cache that does not load is rebuilt once and read once more, and
    what that second reading gives, value or exception, is the outcome of
    the call. *)
Theorem hardware_cache_policy (w : world) :
  (forall f : file,
      hardware_cli w (hardware_file w) = Ok f ->
      exists evs : list event,
        events (snd (get_hardware_data true w))
        = events w ++ EvCollect :: EvReadHardware :: evs
        /\ (forall d : pyval,
              json_load f = Ok d ->
              get_hardware_data true w
              = (Ok d,
                 log EvReadHardware (set_hardware_file f (log EvCollect w)))))
  /\ (forall e : exn,
        hardware_cli w (hardware_file w) = Raise e ->
        get_hardware_data true w = (Raise e, log EvCollect w))
  /\ (forall d : pyval,
        json_load (hardware_file w) = Ok d ->
        get_hardware_data false w = (Ok d, log EvReadHardware w))
  /\ (forall (e : exn) (f : file),
        json_load (hardware_file w) = Raise e ->
        hardware_cli w (hardware_file w) = Ok f ->
        fst (get_hardware_data false w) = json_load f
        /\ events (snd (get_hardware_data false w))
           = events w ++ [EvReadHardware; EvCollect; EvReadHardware]
        /\ hardware_file (snd (get_hardware_data false w)) = f)
  /\ (forall e e' : exn,
        json_load (hardware_file w) = Raise e ->
        hardware_cli w (hardware_file w) = Raise e' ->
        get_hardware_data false w
        = (Raise e', log EvCollect (log EvReadHardware w))).
Proof.
  split; [apply get_hardware_data_fetch |].
  unfold get_hardware_data, bind, try_except, read_hardware_data,
    build_hardware_data, ret.
  split; [| split; [| split]].
  - intros e He. cbn. rewrite He. reflexivity.
  - intros d Hd. cbn. rewrite Hd. reflexivity.
  - intros e f He Hf. cbn. rewrite He. cbn. rewrite Hf. cbn.
    repeat rewrite <- app_assoc. repeat split; reflexivity.
  - intros e e' He He'. cbn. rewrite He. cbn. rewrite He'. reflexivity.
Qed.

(** Runs of C8's statement: a missing cache that the collector fills, and a
    missing cache that the collector fills with something that does not
    parse. *)
Lemma hardware_cache_policy_witness :
  (fst (get_hardware_data false
          (Sample.host_with Missing (Json Sample.hardware) Missing))
   = Ok Sample.hardware
   /\ events (snd (get_hardware_data false
                     (Sample.host_with Missing (Json Sample.hardware)
                        Missing)))
      = [EvReadHardware; EvCollect; EvReadHardware])
  /\ fst (get_hardware_data false
            (Sample.host_with Missing Unparsable Missing))
     = Raise JSONDecodeError
  /\ get_hardware_data false
       (Sample.host_with (Json Sample.hardware) Unparsable Missing)
     = (Ok Sample.hardware,
        log EvReadHardware
          (Sample.host_with (Json Sample.hardware) Unparsable Missing))
  /\ exists evs : list event,
       events (snd (get_hardware_data true
                      (Sample.host_with Unparsable (Json Sample.hardware)
                         Missing)))
       = EvCollect :: EvReadHardware :: evs.
Proof.
  split; [| split; [| split]].
  - destruct (hardware_cache_policy
                (Sample.host_with Missing (Json Sample.hardware) Missing))
      as (_ & _ & _ & H & _).
    destruct (H OSError (Json Sample.hardware) eq_refl eq_refl)
      as (Hfst & Hevents & _).
    split; [exact Hfst | exact Hevents].
  - destruct (hardware_cache_policy
                (Sample.host_with Missing Unparsable Missing))
      as (_ & _ & _ & H & _).
    exact (proj1 (H OSError Unparsable eq_refl eq_refl)).
  - destruct (hardware_cache_policy
                (Sample.host_with (Json Sample.hardware) Unparsable Missing))
      as (_ & _ & H & _).
    exact (H Sample.hardware eq_refl).
  - destruct (hardware_cache_policy
                (Sample.host_with Unparsable (Json Sample.hardware) Missing))
      as (H & _).
    destruct (H (Json Sample.hardware) eq_refl) as (evs & Hevents & _).
    exists evs. exact Hevents.
Defined.

(** ** An inventory without CPU *)

Lemma no_cpu_index_error (sort_ram sort_disks : pyval -> result pyval)
  (hardware_data : pyval) :
  getitem hardware_data "cpus" = Ok (VList []) ->
  generate_machine_configuration sort_ram sort_disks hardware_data
  = Raise IndexError.
Proof.
  intros H. unfold generate_machine_configuration. rewrite H. reflexivity.
Qed.

Lemma index_error_not_from_cpus (sort_ram sort_disks : pyval -> result pyval)
  (hardware_data first : pyval) (others : list pyval) :
  getitem hardware_data "cpus" = Ok (VList (first :: others)) ->
  generate_machine_configuration sort_ram sort_disks hardware_data
  = Raise IndexError ->
  (exists rams : pyval,
      getitem hardware_data "rams" = Ok rams
      /\ sort_ram rams = Raise IndexError)
  \/ (exists disks : pyval,
        getitem hardware_data "disks" = Ok disks
        /\ sort_disks disks = Raise IndexError).
Proof.
  intros Hcpus. unfold generate_machine_configuration.
  rewrite Hcpus. cbn [rbind len getitem0].
  destruct hardware_data as [| | | | | | inventory]; try discriminate Hcpus.
  destruct first as [| | | | | | cpu];
    try (cbn [getitem rbind]; discriminate).
  cbn [getitem contains]. unfold dict_has.
  destruct (dict_get cpu "core_units"); cbn [rbind]; [| discriminate].
  destruct (dict_get cpu "family"); cbn [rbind]; [| discriminate].
  destruct (dict_get inventory "rams") as [rams |]; cbn [rbind];
    [| discriminate].
  destruct (sort_ram rams) as [ram | e] eqn:Hram; cbn [rbind].
  - destruct (dict_get inventory "disks") as [disks |]; cbn [rbind];
      [| discriminate].
    destruct (sort_disks disks) as [disk | e] eqn:Hdisk; cbn [rbind].
    + destruct (dict_get inventory "mother_board"),
        (dict_get inventory "power_supply"); cbn [rbind]; discriminate.
    + intros H. right. exists disks. split; [reflexivity |].
      rewrite Hdisk. exact H.
  - intros H. left. exists rams. split; [reflexivity |].
    rewrite Hram. exact H.
Qed.

(** C10: on an inventory whose list of CPUs is empty,
    [generate_machine_configuration] raises [IndexError], and every call of
    [get_metrics] that reads such an inventory raises instead of returning a
    report.  With a non-empty list the subscript does not raise: an
    [IndexError] of the builder can then only come out of [sort_ram] or
    [sort_disks]. *)
Theorem no_cpu_no_report
  (float_of_str : string -> option float)
  (sort_ram sort_disks : pyval -> result pyval)
  (seconds_in_one_year : float) :
  (forall hardware_data : pyval,
      getitem hardware_data "cpus" = Ok (VList []) ->
      generate_machine_configuration sort_ram sort_disks hardware_data
      = Raise IndexError)
  /\ (forall (start_time end_time : float) (verbose : bool)
             (location : option string) (measure_power : bool)
             (lifetime : float) (fetch_hardware : bool) (w : world)
             (hardware_data : pyval),
        fst (get_hardware_data fetch_hardware w) = Ok hardware_data ->
        getitem hardware_data "cpus" = Ok (VList []) ->
        exists e : exn,
          fst (get_metrics float_of_str sort_ram sort_disks
                 seconds_in_one_year start_time end_time verbose location
                 measure_power lifetime fetch_hardware w)
          = Raise e)
  /\ (forall (hardware_data first : pyval) (others : list pyval),
        getitem hardware_data "cpus" = Ok (VList (first :: others)) ->
        getitem0 (VList (first :: others)) = Ok first
        /\ (generate_machine_configuration sort_ram sort_disks hardware_data
            = Raise IndexError ->
            (exists rams : pyval,
                getitem hardware_data "rams" = Ok rams
                /\ sort_ram rams = Raise IndexError)
            \/ (exists disks : pyval,
                  getitem hardware_data "disks" = Ok disks
                  /\ sort_disks disks = Raise IndexError))).
Proof.
  split; [apply no_cpu_index_error |]. split.
  - intros start_time end_time verbose location measure_power lifetime
      fetch_hardware w hardware_data Hhw Hcpus.
    destruct (get_metrics float_of_str sort_ram sort_disks
                seconds_in_one_year start_time end_time verbose location
                measure_power lifetime fetch_hardware w)
      as [[report | e] w'] eqn:Hrun.
    + exfalso. apply get_metrics_ok in Hrun.
      destruct Hrun as (ratio & hardware_data' & host_avg & configuration
                        & usage & data & w2 & evs & _ & Hhw' & _ & Hconf & _).
      rewrite Hhw in Hhw'. inversion Hhw'. subst hardware_data'.
      rewrite (no_cpu_index_error _ _ _ Hcpus) in Hconf. discriminate.
    + exists e. reflexivity.
  - intros hardware_data first others Hcpus.
    split; [reflexivity |].
    apply (index_error_not_from_cpus _ _ _ _ _ Hcpus).
Qed.

(** A run of C10's statement: the sample host with an inventory that lists
    no CPU; the exception is the [IndexError] of the builder. *)
Lemma no_cpu_no_report_witness :
  generate_machine_configuration Sample.sort_ram Sample.sort_disks
    Sample.no_cpu = Raise IndexError
  /\ (exists e : exn,
        fst (Sample.get_metrics 1000 4600 false None true 5 false
               (Sample.host_with (Json Sample.no_cpu) (Json Sample.no_cpu)
                  (Json Sample.power)))
        = Raise e)
  /\ fst (Sample.get_metrics 1000 4600 false None true 5 false
            (Sample.host_with (Json Sample.no_cpu) (Json Sample.no_cpu)
               (Json Sample.power)))
     = Raise IndexError
  /\ getitem0 (VList [Sample.cpu; Sample.cpu]) = Ok Sample.cpu.
Proof.
  destruct (no_cpu_no_report Sample.float_of_str Sample.sort_ram
              Sample.sort_disks Sample.seconds_in_one_year)
    as (Hbuilder & Hrun & Hsome).
  split; [apply Hbuilder; reflexivity |].
  split.
  - apply (Hrun 1000 4600 false None true 5 false
             (Sample.host_with (Json Sample.no_cpu) (Json Sample.no_cpu)
                (Json Sample.power)) Sample.no_cpu)%float;
      reflexivity.
  - split; [vm_compute; reflexivity |].
    exact (proj1 (Hsome Sample.hardware Sample.cpu [Sample.cpu] eq_refl)).
Defined.

(** ** The window of the CSV export *)

Lemma sub_one_hour (now : Z) :
  Datetime.clock_reading now ->
  Datetime.sub now 3600000000 = Ok (now - 3600000000)%Z.
Proof.
  unfold Datetime.clock_reading, Datetime.sub, Datetime.unix_epoch,
    Datetime.datetime_max, Datetime.microseconds_per_day.
  intros [Hlo Hhi].
  destruct (Z.ltb_spec (now - 3600000000) 0) as [H | _]; [lia |].
  destruct (Z.ltb_spec (3652059 * 86400000000 - 1) (now - 3600000000))
    as [H | _]; [lia |].
  reflexivity.
Qed.

(** C9: for a [since] other than ["now"] and an [until] that ends with none
    of [d], [h] and [m], [parse_date_info] raises nothing and returns the
    default window: the end is the clock reading and the start is one hour
    before it. *)
Theorem malformed_window_is_default (int_of_str : string -> option Z)
  (now1 now2 : Z) (since until : string) :
  Datetime.clock_reading now1 ->
  since <> "now" ->
  endswith until "d" = false ->
  endswith until "h" = false ->
  endswith until "m" = false ->
  parse_date_info int_of_str now1 now2 since until
  = Ok ((now1 - 3600000000)%Z, now1).
Proof.
  intros Hclock Hsince Hd Hh Hm. unfold parse_date_info.
  change (Datetime.hours 1) with (Ok 3600000000%Z : result Z).
  cbn [rbind]. rewrite (sub_one_hour now1 Hclock). cbn [rbind].
  rewrite Hd, Hh, Hm. cbn [rbind].
  apply String.eqb_neq in Hsince. rewrite Hsince. reflexivity.
Qed.

(** A run of C9's statement. *)
Lemma malformed_window_is_default_witness :
  parse_date_info Sample.int_of_str Sample.now (Sample.now + 7) "yesterday"
    "2 weeks"
  = Ok ((Sample.now - 3600000000)%Z, Sample.now).
Proof.
  apply malformed_window_is_default.
  - unfold Datetime.clock_reading. vm_compute.
    split; intros H; discriminate H.
  - discriminate.
  - reflexivity.
  - reflexivity.
  - reflexivity.
Defined.

(** ** The shape of the report *)

Lemma dict_set_nil (k : string) (v : pyval) : dict_set [] k v = [(k, v)].
Proof. reflexivity. Qed.

Lemma dict_set_head (d : list (string * pyval)) (k : string) (v v' : pyval) :
  dict_set ((k, v) :: d) k v' = (k, v') :: d.
Proof. simpl. rewrite String.eqb_refl. reflexivity. Qed.

Lemma dict_set_tail (d : list (string * pyval)) (k k' : string)
  (v v' : pyval) :
  String.eqb k k' = false ->
  dict_set ((k, v) :: d) k' v' = (k, v) :: dict_set d k' v'.
Proof. intros H. simpl. rewrite H. reflexivity. Qed.

(** Runs the assignments to a dictionary whose keys are known. *)
Ltac dict_build H :=
  repeat first [ rewrite dict_set_head in H
               | rewrite dict_set_tail in H by reflexivity
               | rewrite dict_set_nil in H ].

Section ReportShape.

Variable float_of_str : string -> option float.
Variable sort_ram sort_disks : pyval -> result pyval.
Variable seconds_in_one_year : float.

Lemma get_metrics_report (start_time end_time : float) (verbose : bool)
  (location : option string) (measure_power : bool) (lifetime : float)
  (fetch_hardware : bool) (w w' : world) (report : pyval) :
  get_metrics float_of_str sort_ram sort_disks seconds_in_one_year
    start_time end_time verbose location measure_power lifetime
    fetch_hardware w = (Ok report, w') ->
  exists (hardware_data data host_avg gwp_factor status : pyval)
         (metrics : list (string * pyval)),
    fst (get_hardware_data fetch_hardware w) = Ok hardware_data
    /\ (exists usage configuration : pyval,
          impact_by_config w usage configuration = Ok data)
    /\ usage_verbose data "gwp_factor" "value" = Ok gwp_factor
    /\ usage_verbose data "usage_location" "status" = Ok status
    /\ map fst metrics = operational_keys measure_power ++ common_keys
    /\ Forall (fun entry =>
                 getitem (snd entry) "type"
                 = Ok (VStr (if String.eqb (fst entry) "start_time"
                                || String.eqb (fst entry) "end_time"
                             then "counter" else "gauge")))
         metrics
    /\ report
       = VDict
           (("emissions_calculation_data",
             VDict
               ([("average_power_measured",
                  metric host_avg
                    "Average power measured from start_time to end_time"
                    "gauge" "W" "Watts");
                 ("electricity_carbon_intensity",
                  metric gwp_factor (intensity_description location status)
                    "gauge" "kg CO2eq / kWh"
                    "Kilograms CO2 equivalent per KiloWattHour")]
                ++ (if verbose
                    then [("raw_data",
                           VDict [("hardware_data", hardware_data);
                                  ("resources_data",
                                   VStr "not implemented yet");
                                  ("boaviztapi_data", data)])]
                    else [])))
            :: metrics).
Proof.
  intros H. unfold get_metrics in H.
  bind_inv H now w0 Hnow.
  lift_inv H ratio Hratio.
  lift_inv H lifetime' Hlifetime.
  bind_inv H hardware_data w1 Hhw.
  bind_inv H measured w2 Hmeasured.
  lift_inv H configuration Hconf.
  lift_inv H usage Husage.
  bind_inv H data w3 Hquery.
  bind_inv H res w4 Hres.
  lift_inv H gm Hgm.
  lift_inv H emb Hemb.
  lift_inv H gu Hgu.
  lift_inv H calc Hcalc.
  lift_inv H gm' Hgm'.
  lift_inv H emb' Hemb'.
  lift_inv H am Ham.
  lift_inv H eadp Headp.
  lift_inv H pm Hpm.
  lift_inv H epe Hepe.
  lift_inv H gf Hgf.
  lift_inv H st Hst.
  apply ret_ok in H. destruct H as [Hrep _].
  unfold time_time in Hnow. inversion Hnow. subst w0. clear Hnow.
  rewrite get_hardware_data_tick in Hhw. inversion Hhw as [[Hhw1 Hw1]].
  clear Hhw. subst w1.
  destruct (get_hardware_data_services fetch_hardware w)
    as [(_ & _ & _ & Hic & _) _].
  set (wh := snd (get_hardware_data fetch_hardware w)) in *.
  unfold query_machine_impact_data in Hquery.
  rewrite (generate_machine_configuration_truthy _ _ _ _ Hconf) in Hquery.
  inversion Hquery as [[Hdata Hw3]]. clear Hquery.
  assert (Hm : exists x : pyval,
             snd measured = [("emissions_calculation_data", x)]
             /\ impact_by_config w2 = impact_by_config (tick wh)).
  { destruct measure_power.
    - bind_inv Hmeasured power_data w5 Hpd.
      lift_inv Hmeasured avg Havg.
      lift_inv Hmeasured has_warning Hwarn.
      apply get_power_data_ok in Hpd.
      destruct Hpd as (pd & els & a & _ & _ & _ & _ & Hw5). subst w5.
      destruct has_warning.
      + lift_inv Hmeasured warning Hwarning.
        apply ret_ok in Hmeasured. destruct Hmeasured as [-> ->].
        eexists. split; reflexivity.
      + apply ret_ok in Hmeasured. destruct Hmeasured as [-> ->].
        eexists. split; reflexivity.
    - apply ret_ok in Hmeasured. destruct Hmeasured as [-> ->].
      eexists. split; reflexivity. }
  destruct Hm as (x & Hsnd & Hic2).
  assert (Hservice : impact_by_config w usage configuration = Ok data).
  { rewrite <- Hic. rewrite <- Hdata. rewrite Hic2. reflexivity. }
  exists hardware_data, data, (fst measured), gf, st.
  destruct measure_power.
  - lift_inv Hres gwp_use Hgwp_use.
    lift_inv Hres adp_use Hadp_use.
    lift_inv Hres pe_use Hpe_use.
    apply ret_ok in Hres. destruct Hres as [-> _].
    rewrite Hsnd in Hrep. dict_build Hrep.
    match type of Hrep with
    | report = VDict (_ :: ?m) => exists m
    end.
    split; [exact Hhw1 |].
    split; [exists usage, configuration; exact Hservice |].
    split; [exact Hgf |]. split; [exact Hst |].
    split; [reflexivity |].
    split; [repeat constructor |].
    subst report. destruct verbose; reflexivity.
  - apply ret_ok in Hres. destruct Hres as [-> _].
    rewrite Hsnd in Hrep. dict_build Hrep.
    match type of Hrep with
    | report = VDict (_ :: ?m) => exists m
    end.
    split; [exact Hhw1 |].
    split; [exists usage, configuration; exact Hservice |].
    split; [exact Hgf |]. split; [exact Hst |].
    split; [reflexivity |].
    split; [repeat constructor |].
    subst report. destruct verbose; reflexivity.
Qed.

End ReportShape.

(** X1: the keys of the report of a successful [get_metrics], in order: the
    calculation data, the three operational entries when power is measured
    (and only then), and the six entries every report has.  The calculation
    data holds the measured power and the carbon intensity, and the raw data
    exactly when [verbose] is set. *)
Theorem report_keys
  (float_of_str : string -> option float)
  (sort_ram sort_disks : pyval -> result pyval)
  (seconds_in_one_year start_time end_time : float) (verbose : bool)
  (location : option string) (measure_power : bool) (lifetime : float)
  (fetch_hardware : bool) (w w' : world) (report : pyval) :
  get_metrics float_of_str sort_ram sort_disks seconds_in_one_year
    start_time end_time verbose location measure_power lifetime
    fetch_hardware w = (Ok report, w') ->
  keys_of report
  = "emissions_calculation_data"
    :: operational_keys measure_power ++ common_keys
  /\ exists calculation_data : pyval,
       getitem report "emissions_calculation_data" = Ok calculation_data
       /\ keys_of calculation_data
          = ["average_power_measured"; "electricity_carbon_intensity"]
            ++ (if verbose then ["raw_data"] else []).
Proof.
  intros H. apply get_metrics_report in H.
  destruct H as (hardware_data & data & host_avg & gwp_factor & status
                 & metrics & _ & _ & _ & _ & Hkeys & _ & ->).
  split.
  - cbn [keys_of map fst]. rewrite Hkeys. reflexivity.
  - eexists. split; [reflexivity |]. destruct verbose; reflexivity.
Qed.

(** A run of X1's statement: the sample host, power measured, not verbose. *)
Lemma report_keys_witness :
  keys_of (Sample.report_of 1000 4600 None 5 (Json Sample.power))
  = ["emissions_calculation_data"; "total_operational_emissions";
     "total_operational_abiotic_resources_depletion";
     "total_operational_primary_energy_consumed"; "calculated_emissions";
     "start_time"; "end_time"; "embedded_emissions";
     "embedded_abiotic_resources_depletion"; "embedded_primary_energy"].
Proof.
  exact (proj1
           (report_keys Sample.float_of_str Sample.sort_ram Sample.sort_disks
              Sample.seconds_in_one_year 1000 4600 false None true 5 false
              (Sample.host (Json Sample.power))
              (snd (Sample.get_metrics 1000 4600 false None true 5 false
                      (Sample.host (Json Sample.power))))
              (Sample.report_of 1000 4600 None 5 (Json Sample.power))
              eq_refl)).
Defined.

(** X2: the low-confidence warning never reaches the report.  When power is
    measured and [get_power_data] attaches its warning (the window is at
    most 3600 seconds long), [get_metrics] stores it in the calculation
    data and then replaces the calculation data as a whole: the report of a
    successful run has no [energy_consumption_warning]. *)
Theorem power_warning_is_dropped
  (float_of_str : string -> option float)
  (sort_ram sort_disks : pyval -> result pyval)
  (seconds_in_one_year start_time end_time : float) (verbose : bool)
  (location : option string) (lifetime : float)
  (fetch_hardware : bool) (w w' : world) (report : pyval) :
  get_metrics float_of_str sort_ram sort_disks seconds_in_one_year
    start_time end_time verbose location true lifetime
    fetch_hardware w = (Ok report, w') ->
  exists power_data calculation_data : pyval,
    fst (get_power_data float_of_str (resolved_start w start_time)
           (resolved_end w end_time) w) = Ok power_data
    /\ contains power_data "warning"
       = Ok (resolved_end w end_time - resolved_start w start_time
             <=? 3600)%float
    /\ getitem report "emissions_calculation_data" = Ok calculation_data
    /\ contains calculation_data "energy_consumption_warning" = Ok false.
Proof.
  intros H. pose proof H as Hshape.
  apply get_metrics_ok in H. apply get_metrics_report in Hshape.
  destruct H as (ratio & hardware_data & host_avg & configuration & usage
                 & data & w2 & evs & _ & _ & Hpower & _).
  destruct Hpower as (power_data & Hpd & _).
  destruct Hshape as (hd & dt & avg & gf & status & metrics & _ & _ & _ & _
                      & _ & _ & ->).
  destruct (get_power_data float_of_str (resolved_start w start_time)
              (resolved_end w end_time) w) as [r wp] eqn:Hrun.
  cbn in Hpd. subst r. apply get_power_data_warning in Hrun.
  exists power_data. eexists.
  split; [reflexivity |]. split; [exact Hrun |].
  split; [reflexivity |]. destruct verbose; reflexivity.
Qed.

(** A run of X2's statement: a window of 600 seconds on the sample host. *)
Lemma power_warning_is_dropped_witness :
  exists power_data calculation_data : pyval,
    contains power_data "warning" = Ok true
    /\ getitem (Sample.report_of 1000 1600 None 5 (Json Sample.power))
         "emissions_calculation_data" = Ok calculation_data
    /\ contains calculation_data "energy_consumption_warning" = Ok false.
Proof.
  destruct (power_warning_is_dropped Sample.float_of_str Sample.sort_ram
              Sample.sort_disks Sample.seconds_in_one_year 1000 1600 false
              None 5 false (Sample.host (Json Sample.power))
              (snd (Sample.get_metrics 1000 1600 false None true 5 false
                      (Sample.host (Json Sample.power))))
              (Sample.report_of 1000 1600 None 5 (Json Sample.power))
              eq_refl)
    as (power_data & calculation_data & _ & Hwarning & Hget & Hnone).
  exists power_data, calculation_data.
  split; [exact Hwarning |]. split; [exact Hget | exact Hnone].
Defined.

Lemma dict_get_in (d : list (string * pyval)) (k : string) :
  In k (map fst d) ->
  exists v : pyval, dict_get d k = Some v /\ In (k, v) d.
Proof.
  induction d as [| [k' v'] d IH]; simpl; intros Hin; [contradiction |].
  destruct (String.eqb_spec k' k) as [-> | Hne].
  - exists v'. split; [reflexivity | left; reflexivity].
  - destruct Hin as [Heq | Hin]; [contradiction |].
    destruct (IH Hin) as (v & Hget & Hv).
    exists v. split; [exact Hget | right; exact Hv].
Qed.

(** X3: in the report of a successful [get_metrics] the entries
    [start_time] and [end_time] are counters and every other metric of the
    report is a gauge. *)
Theorem report_metric_types
  (float_of_str : string -> option float)
  (sort_ram sort_disks : pyval -> result pyval)
  (seconds_in_one_year start_time end_time : float) (verbose : bool)
  (location : option string) (measure_power : bool) (lifetime : float)
  (fetch_hardware : bool) (w w' : world) (report : pyval) :
  get_metrics float_of_str sort_ram sort_disks seconds_in_one_year
    start_time end_time verbose location measure_power lifetime
    fetch_hardware w = (Ok report, w') ->
  report_field report "start_time" "type" = Ok (VStr "counter")
  /\ report_field report "end_time" "type" = Ok (VStr "counter")
  /\ (forall name : string,
        In name (operational_keys measure_power ++ common_keys) ->
        name <> "start_time" ->
        name <> "end_time" ->
        report_field report name "type" = Ok (VStr "gauge")).
Proof.
  intros H. apply get_metrics_report in H.
  destruct H as (hardware_data & data & host_avg & gwp_factor & status
                 & metrics & _ & _ & _ & _ & Hkeys & Htypes & ->).
  assert (Hfield : forall name : string,
             In name (operational_keys measure_power ++ common_keys) ->
             report_field
               (VDict (("emissions_calculation_data",
                        VDict
                          ([("average_power_measured",
                             metric host_avg
                               "Average power measured from start_time to end_time"
                               "gauge" "W" "Watts");
                            ("electricity_carbon_intensity",
                             metric gwp_factor
                               (intensity_description location status)
                               "gauge" "kg CO2eq / kWh"
                               "Kilograms CO2 equivalent per KiloWattHour")]
                           ++ (if verbose
                               then [("raw_data",
                                      VDict [("hardware_data", hardware_data);
                                             ("resources_data",
                                              VStr "not implemented yet");
                                             ("boaviztapi_data", data)])]
                               else [])))
                       :: metrics))
               name "type"
             = Ok (VStr (if String.eqb name "start_time"
                            || String.eqb name "end_time"
                         then "counter" else "gauge"))).
  { intros name Hin.
    assert (Hne : String.eqb "emissions_calculation_data" name = false).
    { apply String.eqb_neq. intros <-.
      destruct measure_power; cbn in Hin;
        repeat (destruct Hin as [Hin | Hin]; [discriminate |]);
        contradiction. }
    rewrite <- Hkeys in Hin. apply dict_get_in in Hin.
    destruct Hin as (v & Hget & Hv).
    unfold report_field. cbn [getitem dict_get]. rewrite Hne, Hget.
    cbn [rbind]. rewrite Forall_forall in Htypes.
    exact (Htypes (name, v) Hv). }
  split; [| split].
  - apply (Hfield "start_time"). apply in_or_app. right.
    right. left. reflexivity.
  - apply (Hfield "end_time"). apply in_or_app. right.
    right. right. left. reflexivity.
  - intros name Hin Hs He. rewrite (Hfield name Hin).
    apply String.eqb_neq in Hs. apply String.eqb_neq in He.
    rewrite Hs, He. reflexivity.
Qed.

(** A run of X3's statement on the sample host. *)
Lemma report_metric_types_witness :
  report_field (Sample.report_of 1000 4600 None 5 (Json Sample.power))
    "start_time" "type" = Ok (VStr "counter")
  /\ report_field (Sample.report_of 1000 4600 None 5 (Json Sample.power))
       "embedded_emissions" "type" = Ok (VStr "gauge")
  /\ report_field (Sample.report_of 1000 4600 None 5 (Json Sample.power))
       "total_operational_emissions" "type" = Ok (VStr "gauge").
Proof.
  destruct (report_metric_types Sample.float_of_str Sample.sort_ram
              Sample.sort_disks Sample.seconds_in_one_year 1000 4600 false
              None true 5 false (Sample.host (Json Sample.power))
              (snd (Sample.get_metrics 1000 4600 false None true 5 false
                      (Sample.host (Json Sample.power))))
              (Sample.report_of 1000 4600 None 5 (Json Sample.power))
              eq_refl)
    as (Hstart & _ & Hgauge).
  split; [exact Hstart |]. split.
  - apply Hgauge.
    + cbn. tauto.
    + discriminate.
    + discriminate.
  - apply Hgauge.
    + cbn. tauto.
    + discriminate.
    + discriminate.
Defined.

(** X4: the description of the carbon-intensity entry is the sentence that
    names the location ([None] when there is none), followed by the warning
    about an unknown trigram when the impact service reports the status
    [MODIFY] for the usage location, by the warning about a missing location
    when it reports [SET], and by nothing for any other status. *)
Theorem carbon_intensity_description
  (float_of_str : string -> option float)
  (sort_ram sort_disks : pyval -> result pyval)
  (seconds_in_one_year start_time end_time : float) (verbose : bool)
  (location : option string) (measure_power : bool) (lifetime : float)
  (fetch_hardware : bool) (w w' : world) (report : pyval) :
  get_metrics float_of_str sort_ram sort_disks seconds_in_one_year
    start_time end_time verbose location measure_power lifetime
    fetch_hardware w = (Ok report, w') ->
  exists (usage configuration data status : pyval) (description : string),
    impact_by_config w usage configuration = Ok data
    /\ usage_verbose data "usage_location" "status" = Ok status
    /\ calculation_field report "electricity_carbon_intensity" "description"
       = Ok (VStr description)
    /\ (status = VStr "MODIFY" ->
        description
        = String.append (mix_description location) warning_modify)
    /\ (status = VStr "SET" ->
        description = String.append (mix_description location) warning_set)
    /\ (status <> VStr "MODIFY" ->
        status <> VStr "SET" ->
        description = mix_description location).
Proof.
  intros H. apply get_metrics_report in H.
  destruct H as (hardware_data & data & host_avg & gwp_factor & status
                 & metrics & _ & (usage & configuration & Hdata) & _
                 & Hstatus & _ & _ & ->).
  exists usage, configuration, data, status,
    (intensity_description location status).
  split; [exact Hdata |]. split; [exact Hstatus |].
  split; [reflexivity |]. unfold intensity_description.
  split; [intros ->; reflexivity |].
  split; [intros ->; reflexivity |].
  intros Hm Hs.
  assert (Hneq : forall s : string,
             status <> VStr s -> str_eq status s = false).
  { intros s Hne. destruct status; try reflexivity. cbn.
    apply String.eqb_neq. intros ->. apply Hne. reflexivity. }
  rewrite (Hneq _ Hm), (Hneq _ Hs). reflexivity.
Qed.

(** Runs of X4's statement: a service that answers [MODIFY], and one that
    answers [DEFAULT]. *)
Lemma carbon_intensity_description_witness :
  calculation_field
    (Sample.report_with false true 1000 4600 (Some "XYZ") 5
       (Sample.host_answering "MODIFY"))
    "electricity_carbon_intensity" "description"
  = Ok (VStr (String.append (mix_description (Some "XYZ")) warning_modify))
  /\ calculation_field
       (Sample.report_with false true 1000 4600 (Some "FRA") 5
          (Sample.host_answering "DEFAULT"))
       "electricity_carbon_intensity" "description"
     = Ok (VStr (mix_description (Some "FRA"))).
Proof.
  split.
  - destruct (carbon_intensity_description Sample.float_of_str
                Sample.sort_ram Sample.sort_disks Sample.seconds_in_one_year
                1000 4600 false (Some "XYZ") true 5 false
                (Sample.host_answering "MODIFY")
                (snd (Sample.get_metrics 1000 4600 false (Some "XYZ") true 5
                        false (Sample.host_answering "MODIFY")))
                (Sample.report_with false true 1000 4600 (Some "XYZ") 5
                   (Sample.host_answering "MODIFY"))
                eq_refl)
      as (usage & configuration & data & status & description & Hdata
          & Hstatus & Hdescription & Hmodify & _).
    rewrite Hdescription. rewrite Hmodify; [reflexivity |].
    cbn in Hdata. injection Hdata as <-. cbn in Hstatus.
    injection Hstatus as <-. reflexivity.
  - destruct (carbon_intensity_description Sample.float_of_str
                Sample.sort_ram Sample.sort_disks Sample.seconds_in_one_year
                1000 4600 false (Some "FRA") true 5 false
                (Sample.host_answering "DEFAULT")
                (snd (Sample.get_metrics 1000 4600 false (Some "FRA") true 5
                        false (Sample.host_answering "DEFAULT")))
                (Sample.report_with false true 1000 4600 (Some "FRA") 5
                   (Sample.host_answering "DEFAULT"))
                eq_refl)
      as (usage & configuration & data & status & description & Hdata
          & Hstatus & Hdescription & _ & _ & Hother).
    rewrite Hdescription.
    cbn in Hdata. injection Hdata as <-. cbn in Hstatus.
    injection Hstatus as <-.
    rewrite Hother; [reflexivity | discriminate | discriminate].
Defined.

(** X5: with [verbose] the calculation data of the report carries, under
    [raw_data], the inventory that [get_hardware_data] returned and the
    answer of the impact service, both as they were obtained; without
    [verbose] it has no [raw_data]. *)
Theorem raw_data_when_verbose
  (float_of_str : string -> option float)
  (sort_ram sort_disks : pyval -> result pyval)
  (seconds_in_one_year start_time end_time : float) (verbose : bool)
  (location : option string) (measure_power : bool) (lifetime : float)
  (fetch_hardware : bool) (w w' : world) (report : pyval) :
  get_metrics float_of_str sort_ram sort_disks seconds_in_one_year
    start_time end_time verbose location measure_power lifetime
    fetch_hardware w = (Ok report, w') ->
  exists (usage configuration data hardware_data calculation_data : pyval),
    fst (get_hardware_data fetch_hardware w) = Ok hardware_data
    /\ impact_by_config w usage configuration = Ok data
    /\ getitem report "emissions_calculation_data" = Ok calculation_data
    /\ (verbose = true ->
        getitem calculation_data "raw_data"
        = Ok (VDict [("hardware_data", hardware_data);
                     ("resources_data", VStr "not implemented yet");
                     ("boaviztapi_data", data)]))
    /\ (verbose = false -> contains calculation_data "raw_data" = Ok false).
Proof.
  intros H. apply get_metrics_report in H.
  destruct H as (hardware_data & data & host_avg & gwp_factor & status
                 & metrics & Hhw & (usage & configuration & Hdata) & _
                 & _ & _ & _ & ->).
  exists usage, configuration, data, hardware_data. eexists.
  split; [exact Hhw |]. split; [exact Hdata |].
  split; [reflexivity |].
  split; intros ->; reflexivity.
Qed.

(** A run of X5's statement: a verbose request on the sample host. *)
Lemma raw_data_when_verbose_witness :
  exists calculation_data : pyval,
    getitem
      (Sample.report_with true false 1000 4600 None 5
         (Sample.host (Json Sample.power)))
      "emissions_calculation_data" = Ok calculation_data
    /\ getitem calculation_data "raw_data"
       = Ok (VDict [("hardware_data", Sample.hardware);
                    ("resources_data", VStr "not implemented yet");
                    ("boaviztapi_data", Sample.impact_report)]).
Proof.
  destruct (raw_data_when_verbose Sample.float_of_str Sample.sort_ram
              Sample.sort_disks Sample.seconds_in_one_year 1000 4600 true
              None false 5 false (Sample.host (Json Sample.power))
              (snd (Sample.get_metrics 1000 4600 true None false 5 false
                      (Sample.host (Json Sample.power))))
              (Sample.report_with true false 1000 4600 None 5
                 (Sample.host (Json Sample.power)))
              eq_refl)
    as (usage & configuration & data & hardware_data & calculation_data
        & Hhw & Hdata & Hget & Hraw & _).
  exists calculation_data. split; [exact Hget |].
  rewrite (Hraw eq_refl).
  cbn in Hhw. injection Hhw as <-. cbn in Hdata. injection Hdata as <-.
  reflexivity.
Defined.

(** ** What a run adds to the trace *)

Lemma emits_only_ret {A : Type} (p : event -> bool) (a : A) :
  emits_only p (ret a).
Proof. intros w. exists []. rewrite app_nil_r. split; reflexivity. Qed.

Lemma emits_only_lift {A : Type} (p : event -> bool) (r : result A) :
  emits_only p (lift r).
Proof. intros w. exists []. rewrite app_nil_r. split; reflexivity. Qed.

Lemma emits_only_time (p : event -> bool) : emits_only p time_time.
Proof. intros w. exists []. cbn. rewrite app_nil_r. split; reflexivity. Qed.

Lemma emits_only_bind {A B : Type} (p : event -> bool) (m : M A)
  (k : A -> M B) :
  emits_only p m ->
  (forall a : A, emits_only p (k a)) ->
  emits_only p (bind m k).
Proof.
  intros Hm Hk w. unfold bind.
  destruct (Hm w) as (evs1 & H1 & Hp1).
  destruct (m w) as [[a | e] w1]; cbn in H1.
  - destruct (Hk a w1) as (evs2 & H2 & Hp2).
    exists (evs1 ++ evs2). rewrite H2, H1, app_assoc, forallb_app, Hp1, Hp2.
    split; reflexivity.
  - exists evs1. split; assumption.
Qed.

Lemma emits_only_hardware (p : event -> bool) (fetch_hardware : bool) :
  p EvCollect = true ->
  p EvReadHardware = true ->
  emits_only p (get_hardware_data fetch_hardware).
Proof.
  intros Hc Hr w. hardware_cases w; repeat rewrite <- app_assoc; cbn;
    eexists; (split; [reflexivity |]); cbn; rewrite ?Hc, ?Hr; reflexivity.
Qed.

Lemma emits_only_power (p : event -> bool)
  (float_of_str : string -> option float) (start_time end_time : float) :
  p EvReadPower = true ->
  emits_only p (get_power_data float_of_str start_time end_time).
Proof.
  intros Hp w. exists [EvReadPower]. unfold get_power_data. cbn.
  rewrite Hp. split; reflexivity.
Qed.

Lemma emits_only_query (p : event -> bool) (configuration usage : pyval) :
  (forall u c : pyval, p (EvImpactByConfig u c) = true) ->
  emits_only p (query_machine_impact_data VNone configuration usage).
Proof.
  intros Hp w. unfold query_machine_impact_data.
  destruct (truthy configuration); cbn.
  - eexists. split; [reflexivity |]. cbn. rewrite Hp. reflexivity.
  - exists []. rewrite app_nil_r. split; reflexivity.
Qed.

(** Goes through a computation of the monad, one call at a time. *)
Ltac emits_steps :=
  repeat (cbv beta zeta;
          match goal with
          | |- emits_only _ (bind _ _) =>
              apply emits_only_bind; [| intros ?]
          | |- emits_only _ (lift _) => apply emits_only_lift
          | |- emits_only _ (ret _) => apply emits_only_ret
          | |- emits_only _ time_time => apply emits_only_time
          | |- emits_only _ (get_hardware_data _) =>
              apply emits_only_hardware; assumption
          | |- emits_only _ (get_power_data _ _ _) =>
              apply emits_only_power; assumption
          | |- emits_only _ (query_machine_impact_data VNone _ _) =>
              apply emits_only_query; assumption
          | |- emits_only _ (if ?b then _ else _) => destruct b
          end).

Lemma requests_of_local (evs : list event) :
  forallb local_event evs = true -> request_count evs = 0.
Proof.
  unfold request_count. induction evs as [| e evs IH]; cbn;
    [reflexivity |].
  intros H. apply andb_true_iff in H. destruct H as [He Hevs].
  rewrite He. cbn. exact (IH Hevs).
Qed.

Lemma request_count_app (evs1 evs2 : list event) :
  request_count (evs1 ++ evs2) = request_count evs1 + request_count evs2.
Proof. unfold request_count. rewrite filter_app. apply length_app. Qed.

Lemma requests_after_local {A B : Type} (n : nat) (m : M A) (k : A -> M B) :
  emits_only local_event m ->
  (forall a : A, requests_at_most n (k a)) ->
  requests_at_most n (bind m k).
Proof.
  intros Hm Hk w. unfold bind.
  destruct (Hm w) as (evs1 & H1 & Hp1).
  apply requests_of_local in Hp1.
  destruct (m w) as [[a | e] w1]; cbn in H1.
  - destruct (Hk a w1) as (evs2 & H2 & Hn).
    exists (evs1 ++ evs2). rewrite H2, H1, app_assoc, request_count_app.
    split; [reflexivity | lia].
  - exists evs1. split; [exact H1 | lia].
Qed.

Lemma requests_before_local {A B : Type} (n : nat) (m : M A)
  (k : A -> M B) :
  requests_at_most n m ->
  (forall a : A, emits_only local_event (k a)) ->
  requests_at_most n (bind m k).
Proof.
  intros Hm Hk w. unfold bind.
  destruct (Hm w) as (evs1 & H1 & Hn).
  destruct (m w) as [[a | e] w1]; cbn in H1.
  - destruct (Hk a w1) as (evs2 & H2 & Hp2).
    apply requests_of_local in Hp2.
    exists (evs1 ++ evs2). rewrite H2, H1, app_assoc, request_count_app.
    split; [reflexivity | lia].
  - exists evs1. split; [exact H1 | exact Hn].
Qed.

Lemma query_requests_once (model configuration usage : pyval) :
  requests_at_most 1 (query_machine_impact_data model configuration usage).
Proof.
  intros w. unfold query_machine_impact_data.
  destruct (truthy configuration); [| destruct (truthy model)]; cbn.
  - eexists. split; [reflexivity |]. cbn. lia.
  - eexists. split; [reflexivity |]. cbn. lia.
  - exists []. rewrite app_nil_r. split; [reflexivity | cbn; lia].
Qed.

Section TraceOfMetrics.

Variable float_of_str : string -> option float.
Variable sort_ram sort_disks : pyval -> result pyval.
Variable seconds_in_one_year : float.

Local Abbreviation run_metrics :=
  (get_metrics float_of_str sort_ram sort_disks seconds_in_one_year).

Lemma get_metrics_emits_only (p : event -> bool)
  (start_time end_time : float) (verbose : bool)
  (location : option string) (measure_power : bool) (lifetime : float)
  (fetch_hardware : bool) :
  p EvCollect = true ->
  p EvReadHardware = true ->
  (measure_power = true -> p EvReadPower = true) ->
  (forall u c : pyval, p (EvImpactByConfig u c) = true) ->
  emits_only p
    (run_metrics start_time end_time verbose location measure_power lifetime
       fetch_hardware).
Proof.
  intros Hc Hr Hp Hq. unfold get_metrics.
  destruct measure_power; [specialize (Hp eq_refl) | clear Hp];
    emits_steps.
Qed.

Lemma get_metrics_requests_once (start_time end_time : float)
  (verbose : bool) (location : option string) (measure_power : bool)
  (lifetime : float) (fetch_hardware : bool) :
  requests_at_most 1
    (run_metrics start_time end_time verbose location measure_power lifetime
       fetch_hardware).
Proof.
  assert (Hc : local_event EvCollect = true) by reflexivity.
  assert (Hr : local_event EvReadHardware = true) by reflexivity.
  assert (Hp : local_event EvReadPower = true) by reflexivity.
  unfold get_metrics.
  do 7 (cbv beta zeta;
        apply requests_after_local; [emits_steps | intros ?]).
  cbv beta zeta. apply requests_before_local.
  - apply query_requests_once.
  - intros data. emits_steps.
Qed.

End TraceOfMetrics.

(** X6: without [measure_power], no run of [get_metrics] reads the power
    file, whether it returns a report or raises. *)
Theorem power_file_not_read_unmeasured
  (float_of_str : string -> option float)
  (sort_ram sort_disks : pyval -> result pyval)
  (seconds_in_one_year start_time end_time : float) (verbose : bool)
  (location : option string) (lifetime : float) (fetch_hardware : bool)
  (w : world) :
  exists evs : list event,
    events (snd (get_metrics float_of_str sort_ram sort_disks
                   seconds_in_one_year start_time end_time verbose location
                   false lifetime fetch_hardware w))
    = events w ++ evs
    /\ ~ In EvReadPower evs.
Proof.
  destruct (get_metrics_emits_only float_of_str sort_ram sort_disks
              seconds_in_one_year not_power_read start_time end_time verbose
              location false lifetime fetch_hardware eq_refl eq_refl)
    with (w := w) as (evs & Hevs & Hall).
  - discriminate.
  - reflexivity.
  - exists evs. split; [exact Hevs |].
    intros Hin. rewrite forallb_forall in Hall.
    specialize (Hall EvReadPower Hin). discriminate.
Qed.

(** X7: a run of [get_metrics], successful or not, sends at most one request
    to the impact service, and never one to the endpoint that takes a
    model. *)
Theorem one_request_by_configuration
  (float_of_str : string -> option float)
  (sort_ram sort_disks : pyval -> result pyval)
  (seconds_in_one_year start_time end_time : float) (verbose : bool)
  (location : option string) (measure_power : bool) (lifetime : float)
  (fetch_hardware : bool) (w : world) :
  exists evs : list event,
    events (snd (get_metrics float_of_str sort_ram sort_disks
                   seconds_in_one_year start_time end_time verbose location
                   measure_power lifetime fetch_hardware w))
    = events w ++ evs
    /\ request_count evs <= 1
    /\ (forall usage model : pyval, ~ In (EvImpactByModel usage model) evs).
Proof.
  destruct (get_metrics_requests_once float_of_str sort_ram sort_disks
              seconds_in_one_year start_time end_time verbose location
              measure_power lifetime fetch_hardware w)
    as (evs & Hevs & Hcount).
  destruct (get_metrics_emits_only float_of_str sort_ram sort_disks
              seconds_in_one_year not_by_model start_time end_time verbose
              location measure_power lifetime fetch_hardware eq_refl eq_refl
              (fun _ => eq_refl) (fun _ _ => eq_refl) w)
    as (evs' & Hevs' & Hall).
  rewrite Hevs in Hevs'. apply app_inv_head in Hevs'. subst evs'.
  exists evs. split; [exact Hevs |]. split; [exact Hcount |].
  intros usage model Hin. rewrite forallb_forall in Hall.
  specialize (Hall _ Hin). discriminate.
Qed.

(** X8: with two non-zero bounds and a product [lifetime *
    seconds_in_one_year] equal to zero (a lifetime of zero years),
    [get_metrics] raises [ZeroDivisionError] as soon as it has read the
    clock: no file is read and nothing is sent. *)
Theorem zero_lifetime_raises
  (float_of_str : string -> option float)
  (sort_ram sort_disks : pyval -> result pyval)
  (seconds_in_one_year start_time end_time : float) (verbose : bool)
  (location : option string) (measure_power : bool) (lifetime : float)
  (fetch_hardware : bool) (w : world) :
  (start_time =? 0)%float = false ->
  (end_time =? 0)%float = false ->
  (lifetime * seconds_in_one_year =? 0)%float = true ->
  get_metrics float_of_str sort_ram sort_disks seconds_in_one_year
    start_time end_time verbose location measure_power lifetime
    fetch_hardware w
  = (Raise ZeroDivisionError, tick w).
Proof.
  intros Hs He Hz.
  unfold get_metrics, bind, time_time, lift, window_ratio, PyFloat.truthy,
    PyFloat.truediv.
  rewrite Hs, He, Hz. reflexivity.
Qed.

(** A run of X8's statement: a lifetime of zero years on the sample host. *)
Lemma zero_lifetime_raises_witness :
  Sample.get_metrics 1000 4600 false None true 0 false
    (Sample.host (Json Sample.power))
  = (Raise ZeroDivisionError, tick (Sample.host (Json Sample.power))).
Proof.
  apply zero_lifetime_raises; reflexivity.
Defined.

(** ** More on the hardware cache *)

Lemma get_hardware_data_counts (fetch_hardware : bool) (w : world) :
  exists evs : list event,
    events (snd (get_hardware_data fetch_hardware w)) = events w ++ evs
    /\ collect_count evs <= (if fetch_hardware then 2 else 1)
    /\ hardware_read_count evs <= 2
    /\ forallb (fun e => match e with
                         | EvCollect | EvReadHardware => true
                         | _ => false
                         end) evs = true.
Proof.
  hardware_cases w; repeat rewrite <- app_assoc; cbn;
    eexists; (split; [reflexivity |]); cbn; repeat split; lia.
Qed.

(** X9: when [get_hardware_data] returns an inventory, the cache file it
    leaves behind loads as that inventory; the call touches nothing but the
    cache and the trace. *)
Theorem hardware_cache_is_coherent (fetch_hardware : bool) (w w' : world)
  (hardware_data : pyval) :
  get_hardware_data fetch_hardware w = (Ok hardware_data, w') ->
  json_load (hardware_file w') = Ok hardware_data
  /\ same_services w w'
  /\ clock_reads w' = clock_reads w.
Proof.
  intros H.
  destruct (get_hardware_data_services fetch_hardware w) as [Hsame Hreads].
  rewrite H in Hsame, Hreads. cbn in Hsame, Hreads.
  split; [| split; assumption].
  revert H.
  unfold get_hardware_data, bind, try_except, read_hardware_data,
    build_hardware_data, ret.
  destruct fetch_hardware; cbn.
  - destruct (hardware_cli w (hardware_file w)) as [f |]; cbn;
      [| discriminate].
    destruct (json_load f) as [d |] eqn:Hf; cbn.
    + intros H. inversion H. subst. exact Hf.
    + destruct (hardware_cli w f) as [f' |]; cbn; [| discriminate].
      destruct (json_load f') as [d' |] eqn:Hf'; [| discriminate].
      intros H. inversion H. subst. exact Hf'.
  - destruct (json_load (hardware_file w)) as [d |] eqn:Hf; cbn.
    + intros H. inversion H. subst. exact Hf.
    + destruct (hardware_cli w (hardware_file w)) as [f' |]; cbn;
        [| discriminate].
      destruct (json_load f') as [d' |] eqn:Hf'; [| discriminate].
      intros H. inversion H. subst. exact Hf'.
Qed.

(** A run of X9's statement: a missing cache that the collector fills. *)
Lemma hardware_cache_is_coherent_witness :
  json_load
    (hardware_file
       (snd (get_hardware_data false
               (Sample.host_with Missing (Json Sample.hardware) Missing))))
  = Ok Sample.hardware.
Proof.
  exact (proj1
           (hardware_cache_is_coherent false
              (Sample.host_with Missing (Json Sample.hardware) Missing)
              (snd (get_hardware_data false
                      (Sample.host_with Missing (Json Sample.hardware)
                         Missing)))
              Sample.hardware eq_refl)).
Defined.

(** X10: one call of [get_hardware_data] runs the collector at most twice,
    and at most once without [fetch_hardware]; it reads the cache at most
    twice; and it does nothing else outside the process. *)
Theorem hardware_collector_runs_bounded (fetch_hardware : bool) (w : world) :
  exists evs : list event,
    events (snd (get_hardware_data fetch_hardware w)) = events w ++ evs
    /\ collect_count evs <= (if fetch_hardware then 2 else 1)
    /\ hardware_read_count evs <= 2
    /\ (forall e : event,
          In e evs -> e = EvCollect \/ e = EvReadHardware).
Proof.
  destruct (get_hardware_data_counts fetch_hardware w)
    as (evs & Hevs & Hc & Hr & Hall).
  exists evs. split; [exact Hevs |]. split; [exact Hc |].
  split; [exact Hr |].
  intros e Hin. rewrite forallb_forall in Hall. specialize (Hall e Hin).
  destruct e; try discriminate; [left | right]; reflexivity.
Qed.

(** X11: with [fetch_hardware], when the file that the collector wrote does
    not load, the collector is run a second time, on that file, and the
    outcome of the call is what reading its second output gives. *)
Theorem fetch_collects_again_on_bad_file (w : world) (f f' : file)
  (e : exn) :
  hardware_cli w (hardware_file w) = Ok f ->
  json_load f = Raise e ->
  hardware_cli w f = Ok f' ->
  fst (get_hardware_data true w) = json_load f'
  /\ events (snd (get_hardware_data true w))
     = events w ++ [EvCollect; EvReadHardware; EvCollect; EvReadHardware]
  /\ hardware_file (snd (get_hardware_data true w)) = f'.
Proof.
  intros Hf He Hf'.
  unfold get_hardware_data, bind, try_except, read_hardware_data,
    build_hardware_data, ret.
  cbn. rewrite Hf. cbn. rewrite He. cbn. rewrite Hf'. cbn.
  repeat rewrite <- app_assoc. repeat split; reflexivity.
Qed.

(** A run of X11's statement: a collector whose output never parses. *)
Lemma fetch_collects_again_on_bad_file_witness :
  fst (get_hardware_data true
         (Sample.host_with (Json Sample.hardware) Unparsable Missing))
  = Raise JSONDecodeError
  /\ events (snd (get_hardware_data true
                    (Sample.host_with (Json Sample.hardware) Unparsable
                       Missing)))
     = [EvCollect; EvReadHardware; EvCollect; EvReadHardware].
Proof.
  destruct (fetch_collects_again_on_bad_file
              (Sample.host_with (Json Sample.hardware) Unparsable Missing)
              Unparsable Unparsable JSONDecodeError eq_refl eq_refl eq_refl)
    as (Hfst & Hevents & _).
  split; [exact Hfst | exact Hevents].
Defined.

(** ** Failures of the power samples *)

Lemma select_samples_bad_sample (float_of_str : string -> option float)
  (start_time end_time : float) (data : list pyval) (x : pyval) (err : exn) :
  In x data ->
  host_timestamp float_of_str x = Raise err ->
  exists e : exn,
    select_samples float_of_str start_time end_time data = Raise e.
Proof.
  intros Hin Hx. induction data as [| y rest IH]; [contradiction |].
  cbn [select_samples].
  destruct (host_timestamp float_of_str y) as [t |] eqn:Hy; cbn [rbind].
  - destruct Hin as [-> | Hin]; [congruence |].
    destruct (IH Hin) as (e & He). rewrite He. exists e. reflexivity.
  - eexists. reflexivity.
Qed.

(** X12: a power file that is missing or does not parse makes
    [get_power_data] raise after that one attempt to read it, and makes
    every [get_metrics] that measures power raise instead of returning a
    report. *)
Theorem unreadable_power_file_fails
  (float_of_str : string -> option float)
  (sort_ram sort_disks : pyval -> result pyval)
  (seconds_in_one_year : float) (w : world) (e : exn) :
  json_load (power_file w) = Raise e ->
  (forall start_time end_time : float,
      get_power_data float_of_str start_time end_time w
      = (Raise e, log EvReadPower w))
  /\ (forall (start_time end_time : float) (verbose : bool)
             (location : option string) (lifetime : float)
             (fetch_hardware : bool),
        exists e' : exn,
          fst (get_metrics float_of_str sort_ram sort_disks
                 seconds_in_one_year start_time end_time verbose location
                 true lifetime fetch_hardware w)
          = Raise e').
Proof.
  intros Hload.
  assert (Hpd : forall start_time end_time : float,
             get_power_data float_of_str start_time end_time w
             = (Raise e, log EvReadPower w)).
  { intros start_time end_time. unfold get_power_data. cbn.
    rewrite Hload. reflexivity. }
  split; [exact Hpd |].
  intros start_time end_time verbose location lifetime fetch_hardware.
  destruct (get_metrics float_of_str sort_ram sort_disks seconds_in_one_year
              start_time end_time verbose location true lifetime
              fetch_hardware w) as [[report | e'] w'] eqn:Hrun.
  - exfalso. apply get_metrics_ok in Hrun.
    destruct Hrun as (ratio & hardware_data & host_avg & configuration
                      & usage & data & w2 & evs & _ & _ & Hpower & _).
    destruct Hpower as (power_data & Hfst & _).
    rewrite Hpd in Hfst. discriminate.
  - exists e'. reflexivity.
Qed.

(** A run of X12's statement: the sample host without its power file. *)
Lemma unreadable_power_file_fails_witness :
  get_power_data Sample.float_of_str 1000 4600 (Sample.host Missing)
  = (Raise OSError, log EvReadPower (Sample.host Missing))
  /\ exists e' : exn,
       fst (Sample.get_metrics 1000 4600 false None true 5 false
              (Sample.host Missing))
       = Raise e'.
Proof.
  destruct (unreadable_power_file_fails Sample.float_of_str Sample.sort_ram
              Sample.sort_disks Sample.seconds_in_one_year
              (Sample.host Missing) OSError eq_refl)
    as (Hpd & Hrun).
  split; [apply Hpd |].
  apply (Hrun 1000 4600 false None 5 false)%float.
Defined.

(** X13: one sample of the power file whose host timestamp cannot be read (a
    missing key, a value that is not a number) makes [get_power_data] raise,
    whatever the window and whatever the other samples. *)
Theorem malformed_sample_fails (float_of_str : string -> option float)
  (start_time end_time : float) (w : world) (data x : pyval)
  (elements : list pyval) (err : exn) :
  json_load (power_file w) = Ok data ->
  iter data = Ok elements ->
  In x elements ->
  host_timestamp float_of_str x = Raise err ->
  exists e : exn,
    fst (get_power_data float_of_str start_time end_time w) = Raise e.
Proof.
  intros Hload Hiter Hin Hx. unfold get_power_data. cbn.
  rewrite Hload. cbn [rbind]. rewrite Hiter. cbn [rbind].
  destruct (select_samples_bad_sample float_of_str start_time end_time
              elements x err Hin Hx) as (e & He).
  rewrite He. exists e. reflexivity.
Qed.

(** A run of X13's statement: a sample without timestamp after two good
    samples. *)
Lemma malformed_sample_fails_witness :
  exists e : exn,
    fst (get_power_data Sample.float_of_str 1000 4600
           (Sample.host (Json (VList Sample.power_with_bad_sample))))
    = Raise e.
Proof.
  apply (malformed_sample_fails Sample.float_of_str 1000 4600
           (Sample.host (Json (VList Sample.power_with_bad_sample)))
           (VList Sample.power_with_bad_sample) Sample.bad_sample
           Sample.power_with_bad_sample (KeyError "timestamp"))%float.
  - reflexivity.
  - reflexivity.
  - right. right. left. reflexivity.
  - reflexivity.
Defined.

(** ** Failures and limits of the configuration *)

(** X14: [generate_machine_configuration] raises [KeyError] on an inventory
    without [cpus], on a first CPU without [core_units] or [family], and on
    an inventory without [rams] or [disks]; an exception of [sort_ram] or
    [sort_disks] comes out unchanged.  The missing part that is looked at
    first decides. *)
Theorem configuration_missing_keys
  (sort_ram sort_disks : pyval -> result pyval)
  (inventory : list (string * pyval)) :
  (dict_get inventory "cpus" = None ->
   generate_machine_configuration sort_ram sort_disks (VDict inventory)
   = Raise (KeyError "cpus"))
  /\ (forall (cpu : list (string * pyval)) (others : list pyval),
        dict_get inventory "cpus" = Some (VList (VDict cpu :: others)) ->
        (dict_get cpu "core_units" = None ->
         generate_machine_configuration sort_ram sort_disks (VDict inventory)
         = Raise (KeyError "core_units"))
        /\ (forall core_units : pyval,
              dict_get cpu "core_units" = Some core_units ->
              dict_get cpu "family" = None ->
              generate_machine_configuration sort_ram sort_disks
                (VDict inventory)
              = Raise (KeyError "family"))
        /\ (forall core_units family : pyval,
              dict_get cpu "core_units" = Some core_units ->
              dict_get cpu "family" = Some family ->
              (dict_get inventory "rams" = None ->
               generate_machine_configuration sort_ram sort_disks
                 (VDict inventory)
               = Raise (KeyError "rams"))
              /\ (forall (rams : pyval) (e : exn),
                    dict_get inventory "rams" = Some rams ->
                    sort_ram rams = Raise e ->
                    generate_machine_configuration sort_ram sort_disks
                      (VDict inventory)
                    = Raise e)
              /\ (forall rams ram : pyval,
                    dict_get inventory "rams" = Some rams ->
                    sort_ram rams = Ok ram ->
                    (dict_get inventory "disks" = None ->
                     generate_machine_configuration sort_ram sort_disks
                       (VDict inventory)
                     = Raise (KeyError "disks"))
                    /\ (forall (disks : pyval) (e : exn),
                          dict_get inventory "disks" = Some disks ->
                          sort_disks disks = Raise e ->
                          generate_machine_configuration sort_ram sort_disks
                            (VDict inventory)
                          = Raise e)))).
Proof.
  unfold generate_machine_configuration. cbn [getitem].
  split.
  - intros ->. reflexivity.
  - intros cpu others ->. cbn [rbind len getitem0 getitem].
    split; [intros ->; reflexivity |].
    split; [intros core_units -> ->; reflexivity |].
    intros core_units family -> ->. cbn [rbind].
    split; [intros ->; reflexivity |].
    split.
    { intros rams e Hrams Hsort. rewrite Hrams. cbn [rbind].
      rewrite Hsort. reflexivity. }
    intros rams ram Hrams Hsort. rewrite Hrams. cbn [rbind].
    rewrite Hsort. cbn [rbind].
    split; [intros ->; reflexivity |].
    intros disks e Hdisks Hsort'. rewrite Hdisks. cbn [rbind].
    rewrite Hsort'. reflexivity.
Qed.

(** Runs of X14's statement: an empty inventory, and the sample inventory
    without its disks. *)
Lemma configuration_missing_keys_witness :
  generate_machine_configuration Sample.sort_ram Sample.sort_disks (VDict [])
  = Raise (KeyError "cpus")
  /\ generate_machine_configuration Sample.sort_ram Sample.sort_disks
       (VDict [("cpus", VList [Sample.cpu]); ("rams", VList [])])
     = Raise (KeyError "disks").
Proof.
  split.
  - exact (proj1 (configuration_missing_keys Sample.sort_ram
                    Sample.sort_disks [])
             eq_refl).
  - destruct (configuration_missing_keys Sample.sort_ram Sample.sort_disks
                [("cpus", VList [Sample.cpu]); ("rams", VList [])])
      as (_ & H).
    destruct (H [("core_units", VInt 8); ("family", VStr "x")] [] eq_refl)
      as (_ & _ & H').
    destruct (H' (VInt 8) (VStr "x") eq_refl eq_refl) as (_ & _ & H'').
    exact (proj1 (H'' (VList []) (VList []) eq_refl eq_refl) eq_refl).
Defined.

(** X15: only the first CPU and the number of CPUs count.  Two inventories
    that differ only in the CPUs after the first one, and have as many of
    them, get the same configuration (or the same exception). *)
Theorem other_cpus_are_ignored
  (sort_ram sort_disks : pyval -> result pyval)
  (inventory : list (string * pyval)) (first : pyval)
  (others others' : list pyval) :
  List.length others = List.length others' ->
  generate_machine_configuration sort_ram sort_disks
    (VDict (dict_set inventory "cpus" (VList (first :: others))))
  = generate_machine_configuration sort_ram sort_disks
      (VDict (dict_set inventory "cpus" (VList (first :: others')))).
Proof.
  intros Hlen. unfold generate_machine_configuration.
  cbn [getitem contains]. unfold dict_has.
  rewrite !dict_get_set_eq.
  rewrite !(dict_get_set_neq _ "cpus" "rams") by reflexivity.
  rewrite !(dict_get_set_neq _ "cpus" "disks") by reflexivity.
  rewrite !(dict_get_set_neq _ "cpus" "mother_board") by reflexivity.
  rewrite !(dict_get_set_neq _ "cpus" "power_supply") by reflexivity.
  cbn [rbind len getitem0 List.length]. rewrite Hlen. reflexivity.
Qed.

(** A run of X15's statement: a second CPU of another family changes
    nothing. *)
Lemma other_cpus_are_ignored_witness :
  generate_machine_configuration Sample.sort_ram Sample.sort_disks
    (VDict [("cpus", VList [Sample.cpu; Sample.cpu]);
            ("rams", VList [VDict [("capacity", VInt 16)]]);
            ("disks", VList [VDict [("type", VStr "ssd")]]);
            ("mother_board", VDict [("units", VInt 1)])])
  = generate_machine_configuration Sample.sort_ram Sample.sort_disks
      (VDict [("cpus",
               VList [Sample.cpu;
                      VDict [("core_units", VInt 64);
                             ("family", VStr "y")]]);
              ("rams", VList [VDict [("capacity", VInt 16)]]);
              ("disks", VList [VDict [("type", VStr "ssd")]]);
              ("mother_board", VDict [("units", VInt 1)])]).
Proof.
  exact (other_cpus_are_ignored Sample.sort_ram Sample.sort_disks
           [("cpus", VNone);
            ("rams", VList [VDict [("capacity", VInt 16)]]);
            ("disks", VList [VDict [("type", VStr "ssd")]]);
            ("mother_board", VDict [("units", VInt 1)])]
           Sample.cpu [Sample.cpu]
           [VDict [("core_units", VInt 64); ("family", VStr "y")]]
           eq_refl).
Defined.

(** ** More on the window of the CSV export *)

Lemma endswith_one_suffix (s : string) (c c' : ascii) :
  endswith s c = true -> c <> c' -> endswith s c' = false.
Proof.
  induction s as [| a rest IH]; cbn; [discriminate |].
  destruct rest as [| b rest'].
  - intros Ha Hne. apply Ascii.eqb_eq in Ha. subst a.
    apply Ascii.eqb_neq. exact Hne.
  - exact IH.
Qed.

Lemma timedelta_in_range (microseconds : Z) :
  (0 <= microseconds <= Datetime.datetime_max)%Z ->
  Datetime.timedelta microseconds = Ok microseconds.
Proof.
  unfold Datetime.timedelta, Datetime.datetime_max,
    Datetime.microseconds_per_day.
  intros [Hlo Hhi].
  assert (H0 : (0 <= microseconds / 86400000000)%Z)
    by (apply Z.div_pos; lia).
  assert (H1 : (microseconds / 86400000000 <= 3652059)%Z).
  { apply Z.div_le_upper_bound; lia. }
  destruct (Z.ltb_spec (microseconds / 86400000000) (-999999999))
    as [H | _]; [lia |].
  destruct (Z.ltb_spec 999999999 (microseconds / 86400000000))
    as [H | _]; [lia |].
  reflexivity.
Qed.

Lemma sub_in_range (now delta : Z) :
  Datetime.clock_reading now ->
  (0 <= delta <= now)%Z ->
  Datetime.sub now delta = Ok (now - delta)%Z.
Proof.
  unfold Datetime.clock_reading, Datetime.sub. intros [Hlo Hhi] [Hd Hn].
  destruct (Z.ltb_spec (now - delta) 0) as [H | _]; [lia |].
  destruct (Z.ltb_spec Datetime.datetime_max (now - delta)) as [H | _];
    [lia |].
  reflexivity.
Qed.

(** X16: with [since] equal to ["now"] and an [until] made of a number [n]
    and one of the suffixes [d], [h] and [m], the window ends at the second
    reading of the clock and starts [n] days, hours or minutes before it
    (for an [n] that is not negative and does not reach before the first
    datetime). *)
Theorem window_of_number_and_unit (int_of_str : string -> option Z)
  (now1 now2 : Z) (until : string) (n : Z) :
  Datetime.clock_reading now1 ->
  Datetime.clock_reading now2 ->
  (0 <= n)%Z ->
  (endswith until "d" = true ->
   int_of_str (remove_char until "d") = Some n ->
   (n * Datetime.microseconds_per_day <= now2)%Z ->
   parse_date_info int_of_str now1 now2 "now" until
   = Ok ((now2 - n * Datetime.microseconds_per_day)%Z, now2))
  /\ (endswith until "h" = true ->
      int_of_str (remove_char until "h") = Some n ->
      (n * 3600000000 <= now2)%Z ->
      parse_date_info int_of_str now1 now2 "now" until
      = Ok ((now2 - n * 3600000000)%Z, now2))
  /\ (endswith until "m" = true ->
      int_of_str (remove_char until "m") = Some n ->
      (n * 60000000 <= now2)%Z ->
      parse_date_info int_of_str now1 now2 "now" until
      = Ok ((now2 - n * 60000000)%Z, now2)).
Proof.
  intros Hclock1 Hclock2 Hn.
  assert (Hmax : (now2 <= Datetime.datetime_max)%Z)
    by (unfold Datetime.clock_reading in Hclock2; lia).
  unfold parse_date_info, py_int.
  change (Datetime.hours 1) with (Ok 3600000000%Z : result Z).
  cbn [rbind]. rewrite (sub_one_hour now1 Hclock1). cbn [rbind].
  change (String.eqb "now" "now") with true. cbv iota.
  split; [| split].
  - intros Hd Hparse Hrange.
    rewrite Hd, Hparse.
    rewrite (endswith_one_suffix until "d" "h" Hd) by discriminate.
    rewrite (endswith_one_suffix until "d" "m" Hd) by discriminate.
    cbn [rbind]. unfold Datetime.days.
    rewrite timedelta_in_range
      by (unfold Datetime.microseconds_per_day in *; lia).
    cbn [rbind].
    rewrite sub_in_range;
      [reflexivity | exact Hclock2
      | unfold Datetime.microseconds_per_day in *; lia].
  - intros Hh Hparse Hrange.
    rewrite (endswith_one_suffix until "h" "d" Hh) by discriminate.
    rewrite Hh, Hparse. cbn [rbind]. unfold Datetime.hours.
    rewrite timedelta_in_range by lia. cbn [rbind].
    rewrite sub_in_range; [reflexivity | exact Hclock2 | lia].
  - intros Hm Hparse Hrange.
    rewrite (endswith_one_suffix until "m" "d" Hm) by discriminate.
    rewrite (endswith_one_suffix until "m" "h" Hm) by discriminate.
    rewrite Hm, Hparse. cbn [rbind]. unfold Datetime.minutes.
    rewrite timedelta_in_range by lia. cbn [rbind].
    rewrite sub_in_range; [reflexivity | exact Hclock2 | lia].
Qed.

(** A run of X16's statement: the default of the route, the last 24 hours. *)
Lemma window_of_number_and_unit_witness :
  parse_date_info Sample.int_of_str Sample.now (Sample.now + 7) "now" "24h"
  = Ok ((Sample.now + 7 - 24 * 3600000000)%Z, (Sample.now + 7)%Z).
Proof.
  assert (Hclock : forall t : Z,
             (0 <= t <= 7)%Z -> Datetime.clock_reading (Sample.now + t)).
  { intros t Ht. unfold Datetime.clock_reading, Sample.now,
      Datetime.unix_epoch, Datetime.datetime_max,
      Datetime.microseconds_per_day. lia. }
  destruct (window_of_number_and_unit Sample.int_of_str Sample.now
              (Sample.now + 7) "24h" 24) as (_ & Hhours & _).
  - rewrite <- (Z.add_0_r Sample.now). apply Hclock. lia.
  - apply Hclock. lia.
  - lia.
  - apply Hhours.
    + reflexivity.
    + reflexivity.
    + unfold Sample.now, Datetime.unix_epoch,
        Datetime.microseconds_per_day. lia.
Defined.

(** X17: an [until] that ends with [d], [h] or [m] and whose remaining
    characters are not a number makes [parse_date_info] raise [ValueError],
    whatever [since] is: only an unknown suffix falls back to the default
    window. *)
Theorem window_with_bad_number_raises (int_of_str : string -> option Z)
  (now1 now2 : Z) (since until : string) (c : ascii) :
  Datetime.clock_reading now1 ->
  c = "d"%char \/ c = "h"%char \/ c = "m"%char ->
  endswith until c = true ->
  int_of_str (remove_char until c) = None ->
  parse_date_info int_of_str now1 now2 since until = Raise ValueError.
Proof.
  intros Hclock Hc Hends Hparse. unfold parse_date_info, py_int.
  change (Datetime.hours 1) with (Ok 3600000000%Z : result Z).
  cbn [rbind]. rewrite (sub_one_hour now1 Hclock). cbn [rbind].
  destruct Hc as [-> | [-> | ->]].
  - rewrite Hends, Hparse. reflexivity.
  - rewrite (endswith_one_suffix until "h" "d" Hends) by discriminate.
    rewrite Hends, Hparse. reflexivity.
  - rewrite (endswith_one_suffix until "m" "d" Hends) by discriminate.
    rewrite (endswith_one_suffix until "m" "h" Hends) by discriminate.
    rewrite Hends, Hparse. reflexivity.
Qed.

(** A run of X17's statement: a number of hours that is not one. *)
Lemma window_with_bad_number_raises_witness :
  parse_date_info Sample.int_of_str Sample.now (Sample.now + 7) "now"
    "manyh"
  = Raise ValueError.
Proof.
  apply (window_with_bad_number_raises Sample.int_of_str Sample.now
           (Sample.now + 7) "now" "manyh" "h").
  - unfold Datetime.clock_reading, Sample.now, Datetime.unix_epoch,
      Datetime.datetime_max, Datetime.microseconds_per_day. lia.
  - right. left. reflexivity.
  - reflexivity.
  - reflexivity.
Defined.

(** X18: with [since] equal to ["now"] the clock is read a second time for
    the end of the window, while the default start stays one hour before
    the first reading: for an [until] without known suffix the window is
    [(now1 - 1 hour, now2)]. *)
Theorem default_window_reads_clock_twice (int_of_str : string -> option Z)
  (now1 now2 : Z) (until : string) :
  Datetime.clock_reading now1 ->
  endswith until "d" = false ->
  endswith until "h" = false ->
  endswith until "m" = false ->
  parse_date_info int_of_str now1 now2 "now" until
  = Ok ((now1 - 3600000000)%Z, now2).
Proof.
  intros Hclock Hd Hh Hm. unfold parse_date_info.
  change (Datetime.hours 1) with (Ok 3600000000%Z : result Z).
  cbn [rbind]. rewrite (sub_one_hour now1 Hclock). cbn [rbind].
  rewrite Hd, Hh, Hm. reflexivity.
Qed.

(** A run of X18's statement: seven microseconds between the readings. *)
Lemma default_window_reads_clock_twice_witness :
  parse_date_info Sample.int_of_str Sample.now (Sample.now + 7) "now"
    "2 weeks"
  = Ok ((Sample.now - 3600000000)%Z, (Sample.now + 7)%Z).
Proof.
  apply default_window_reads_clock_twice.
  - unfold Datetime.clock_reading, Sample.now, Datetime.unix_epoch,
      Datetime.datetime_max, Datetime.microseconds_per_day. lia.
  - reflexivity.
  - reflexivity.
  - reflexivity.
Defined.

(** ** The first version of the service *)

Lemma tbind_calls {A B : Type} (p : Prototype.call -> bool)
  (m : Prototype.T A) (k : A -> Prototype.T B) :
  forallb p (snd m) = true ->
  (forall a : A, fst m = Ok a -> forallb p (snd (k a)) = true) ->
  forallb p (snd (Prototype.tbind m k)) = true.
Proof.
  destruct m as [[a | e] calls]; cbn; intros Hm Hk; [| exact Hm].
  specialize (Hk a eq_refl). destruct (k a) as [r calls']. cbn in *.
  rewrite forallb_app, Hm, Hk. reflexivity.
Qed.

Lemma tbind_ok {A B : Type} (m : Prototype.T A) (k : A -> Prototype.T B)
  (b : B) (calls : list Prototype.call) :
  Prototype.tbind m k = (Ok b, calls) ->
  exists (a : A) (calls1 calls2 : list Prototype.call),
    m = (Ok a, calls1) /\ k a = (Ok b, calls2) /\ calls = calls1 ++ calls2.
Proof.
  destruct m as [[a | e] calls1]; cbn; [| discriminate].
  destruct (k a) as [r calls2] eqn:Hk. intros H. inversion H. subst.
  exists a, calls1, calls2.
  split; [reflexivity |]. split; [exact Hk | reflexivity].
Qed.

Lemma construct_ok (model : pyval -> result pyval) (item object : pyval) :
  Prototype.construct model item = Ok object ->
  exists d : list (string * pyval), item = VDict d.
Proof.
  destruct item; cbn; try discriminate. intros _. eexists. reflexivity.
Qed.

Lemma post_each_calls (p : Prototype.call -> bool)
  (model : pyval -> result pyval)
  (post : pyval -> pyval -> result pyval * Prototype.call)
  (items : list pyval) :
  (forall item object : pyval,
      Prototype.construct model item = Ok object ->
      p (snd (post item object)) = true) ->
  forallb p (snd (Prototype.post_each model post items)) = true.
Proof.
  intros Hpost. induction items as [| item rest IH]; [reflexivity |].
  cbn [Prototype.post_each].
  apply tbind_calls; [reflexivity |]. intros object Hobject.
  cbn in Hobject. apply tbind_calls.
  - specialize (Hpost item object Hobject).
    destruct (post item object) as [answer made]. cbn in *.
    rewrite Hpost. reflexivity.
  - intros answer _. apply tbind_calls; [exact IH |].
    intros answers _. reflexivity.
Qed.

Lemma post_each_ok (mk : pyval -> Prototype.call)
  (model endpoint : pyval -> result pyval)
  (post : pyval -> pyval -> result pyval * Prototype.call)
  (items answers : list pyval) (calls : list Prototype.call) :
  (forall item object : pyval,
      Prototype.construct model item = Ok object ->
      post item object = (endpoint object, mk object)) ->
  Prototype.post_each model post items = (Ok answers, calls) ->
  exists objects : list pyval,
    Forall2 (fun item object => Prototype.construct model item = Ok object)
      items objects
    /\ Forall2 (fun object answer => endpoint object = Ok answer)
         objects answers
    /\ calls = map mk objects.
Proof.
  intros Hpost. revert answers calls.
  induction items as [| item rest IH]; intros answers calls H.
  - cbn in H. inversion H. exists []. repeat split; constructor.
  - cbn [Prototype.post_each] in H.
    apply tbind_ok in H.
    destruct H as (object & c1 & c2 & Hobject & H & ->).
    unfold Prototype.tlift in Hobject. inversion Hobject as [[Hobj Hc1]].
    apply tbind_ok in H.
    destruct H as (answer & c3 & c4 & Hanswer & H & ->).
    rewrite (Hpost item object Hobj) in Hanswer.
    inversion Hanswer as [[Hend Hc3]].
    apply tbind_ok in H.
    destruct H as (rest_answers & c5 & c6 & Hrest & H & ->).
    unfold Prototype.tret in H. inversion H. subst answers c6.
    destruct (IH rest_answers c5 Hrest) as (objects & Hobjs & Hans & ->).
    exists (object :: objects). rewrite app_nil_r.
    split; [constructor; assumption |].
    split; [constructor; assumption | reflexivity].
Qed.

Lemma post_disk_is_hdd (api : Prototype.client) (item object : pyval) :
  Prototype.construct (Prototype.Disk api) item = Ok object ->
  Prototype.post_disk api item object
  = (Prototype.hdd_impact api object, Prototype.HddImpact object).
Proof.
  intros H. apply construct_ok in H. destruct H as (d & ->). reflexivity.
Qed.

(** X19: [get_embedded_impact_data] never calls the SSD endpoint.  The test
    that chooses it compares the disk record, a mapping, with the string
    ["ssd"]; every disk goes to the HDD endpoint, whatever its type. *)
Theorem ssd_endpoint_never_called (api : Prototype.client)
  (hardware_data : pyval) :
  forall disk : pyval,
    ~ In (Prototype.SsdImpact disk)
        (snd (Prototype.get_embedded_impact_data api hardware_data)).
Proof.
  assert (H : forallb not_ssd
                (snd (Prototype.get_embedded_impact_data api hardware_data))
              = true).
  { unfold Prototype.get_embedded_impact_data.
    apply tbind_calls; [reflexivity |]. intros cpus _.
    apply tbind_calls;
      [apply post_each_calls; intros; reflexivity |]. intros res_cpus _.
    apply tbind_calls; [reflexivity |]. intros rams _.
    apply tbind_calls;
      [apply post_each_calls; intros; reflexivity |]. intros res_rams _.
    apply tbind_calls; [reflexivity |]. intros disks _.
    apply tbind_calls.
    { apply post_each_calls. intros item object Hobject.
      rewrite (post_disk_is_hdd api item object Hobject). reflexivity. }
    intros res_disks _.
    apply tbind_calls; [reflexivity |]. intros mother_board _.
    apply tbind_calls; [reflexivity |]. intros res_motherboard _.
    reflexivity. }
  intros disk Hin. rewrite forallb_forall in H.
  specialize (H _ Hin). discriminate.
Qed.

(** X20: when [get_embedded_impact_data] returns, it has made one call per
    CPU, then one per RAM module, then one per disk (to the HDD endpoint),
    then one for the motherboard, in the order of the inventory; the
    answers are returned per kind, as many as there are components. *)
Theorem one_call_per_component (api : Prototype.client)
  (hardware_data embedded_impact_data : pyval)
  (calls : list Prototype.call) :
  Prototype.get_embedded_impact_data api hardware_data
  = (Ok embedded_impact_data, calls) ->
  exists (cpus rams disks cpu_models ram_models disk_models : list pyval)
         (res_cpus res_rams res_disks : list pyval) (mother_board : pyval),
    rbind (getitem hardware_data "cpus") iter = Ok cpus
    /\ rbind (getitem hardware_data "rams") iter = Ok rams
    /\ rbind (getitem hardware_data "disks") iter = Ok disks
    /\ Forall2 (fun item model =>
                  Prototype.construct (Prototype.Cpu api) item = Ok model)
         cpus cpu_models
    /\ Forall2 (fun item model =>
                  Prototype.construct (Prototype.Ram api) item = Ok model)
         rams ram_models
    /\ Forall2 (fun item model =>
                  Prototype.construct (Prototype.Disk api) item = Ok model)
         disks disk_models
    /\ calls
       = map Prototype.CpuImpact cpu_models
         ++ map Prototype.RamImpact ram_models
         ++ map Prototype.HddImpact disk_models
         ++ [Prototype.MotherboardImpact mother_board]
    /\ List.length calls
       = List.length cpus + List.length rams + List.length disks + 1
    /\ getitem embedded_impact_data "cpus_impact" = Ok (VList res_cpus)
    /\ getitem embedded_impact_data "rams_impact" = Ok (VList res_rams)
    /\ getitem embedded_impact_data "disks_impact" = Ok (VList res_disks)
    /\ List.length res_cpus = List.length cpus
    /\ List.length res_rams = List.length rams
    /\ List.length res_disks = List.length disks.
Proof.
  unfold Prototype.get_embedded_impact_data. intros H.
  apply tbind_ok in H. destruct H as (cpus & c1 & c1' & Hcpus & H & ->).
  apply tbind_ok in H. destruct H as (res_cpus & c2 & c2' & Hpc & H & ->).
  apply tbind_ok in H. destruct H as (rams & c3 & c3' & Hrams & H & ->).
  apply tbind_ok in H. destruct H as (res_rams & c4 & c4' & Hpr & H & ->).
  apply tbind_ok in H. destruct H as (disks & c5 & c5' & Hdisks & H & ->).
  apply tbind_ok in H. destruct H as (res_disks & c6 & c6' & Hpd & H & ->).
  apply tbind_ok in H. destruct H as (mb & c7 & c7' & Hmb & H & ->).
  apply tbind_ok in H. destruct H as (res_mb & c8 & c8' & Hpm & H & ->).
  unfold Prototype.tret in H. inversion H. subst embedded_impact_data c8'.
  unfold Prototype.tlift in Hcpus, Hrams, Hdisks, Hmb.
  inversion Hcpus as [[Hcpus' E1]]. inversion Hrams as [[Hrams' E3]].
  inversion Hdisks as [[Hdisks' E5]]. inversion Hmb as [[Hmb' E7]].
  inversion Hpm as [[Hpm' E8]].
  apply (post_each_ok Prototype.CpuImpact _ (Prototype.cpu_impact api))
    in Hpc; [| reflexivity].
  apply (post_each_ok Prototype.RamImpact _ (Prototype.ram_impact api))
    in Hpr; [| reflexivity].
  apply (post_each_ok Prototype.HddImpact _ (Prototype.hdd_impact api))
    in Hpd; [| apply post_disk_is_hdd].
  destruct Hpc as (cpu_models & Hcm & Hca & ->).
  destruct Hpr as (ram_models & Hrm & Hra & ->).
  destruct Hpd as (disk_models & Hdm & Hda & ->).
  exists cpus, rams, disks, cpu_models, ram_models, disk_models, res_cpus,
    res_rams, res_disks, mb.
  pose proof (Forall2_length Hcm) as L1.
  pose proof (Forall2_length Hrm) as L2.
  pose proof (Forall2_length Hdm) as L3.
  pose proof (Forall2_length Hca) as L4.
  pose proof (Forall2_length Hra) as L5.
  pose proof (Forall2_length Hda) as L6.
  split; [exact Hcpus' |]. split; [exact Hrams' |]. split; [exact Hdisks' |].
  split; [exact Hcm |]. split; [exact Hrm |]. split; [exact Hdm |].
  split; [cbn; rewrite ?app_nil_r, <- ?app_assoc; reflexivity |].
  split.
  { cbn. rewrite ?app_nil_r, !length_app, !length_map. cbn. lia. }
  split; [reflexivity |]. split; [reflexivity |]. split; [reflexivity |].
  repeat split; lia.
Qed.

(** A run of X20's statement: the inventory of the sample host, two CPUs,
    one RAM module, one disk of type ssd and the motherboard. *)
Lemma one_call_per_component_witness :
  snd (Prototype.get_embedded_impact_data Sample.client Sample.hardware)
  = [Prototype.CpuImpact Sample.cpu; Prototype.CpuImpact Sample.cpu;
     Prototype.RamImpact (VDict [("capacity", VInt 16)]);
     Prototype.HddImpact (VDict [("type", VStr "ssd")]);
     Prototype.MotherboardImpact (VDict [("units", VInt 1)])]
  /\ List.length
       (snd (Prototype.get_embedded_impact_data Sample.client
               Sample.hardware))
     = 5.
Proof.
  destruct (one_call_per_component Sample.client Sample.hardware
              Sample.embedded
              (snd (Prototype.get_embedded_impact_data Sample.client
                      Sample.hardware))
              eq_refl)
    as (cpus & rams & disks & cpu_models & ram_models & disk_models
        & res_cpus & res_rams & res_disks & mother_board & Hcpus & Hrams
        & Hdisks & _ & _ & _ & _ & Hlen & _).
  split; [reflexivity |].
  rewrite Hlen. cbn in Hcpus, Hrams, Hdisks.
  injection Hcpus as <-. injection Hrams as <-. injection Hdisks as <-.
  reflexivity.
Defined.

Lemma add_manufacture_fold (float_of_str : string -> option float)
  (impacts : list pyval) (ms : list float) :
  Forall2 (manufacture_is float_of_str) impacts ms ->
  forall total : float,
    Prototype.add_manufacture float_of_str total impacts
    = Ok (fold_left PrimFloat.add ms total).
Proof.
  induction 1 as [| x m impacts ms Hx _ IH]; intros total; cbn.
  - reflexivity.
  - unfold manufacture_is in Hx. rewrite Hx. cbn [rbind]. apply IH.
Qed.

(** X21: [get_total_embedded_emissions] adds the GWP manufacture figures as
    floats from [0.0], the disks first, then the RAM modules, then the CPUs,
    then the motherboard, and rounds that sum once, at the end. *)
Theorem total_is_rounded_sum (float_of_str : string -> option float)
  (round1 : float -> float) (embedded_impact_data : pyval)
  (disks rams cpus : list pyval) (motherboard : pyval)
  (ds rs cs : list float) (m : float) :
  getitem embedded_impact_data "disks_impact" = Ok (VList disks) ->
  getitem embedded_impact_data "rams_impact" = Ok (VList rams) ->
  getitem embedded_impact_data "cpus_impact" = Ok (VList cpus) ->
  getitem embedded_impact_data "motherboard_impact" = Ok motherboard ->
  Forall2 (manufacture_is float_of_str) disks ds ->
  Forall2 (manufacture_is float_of_str) rams rs ->
  Forall2 (manufacture_is float_of_str) cpus cs ->
  manufacture_is float_of_str motherboard m ->
  Prototype.get_total_embedded_emissions float_of_str round1
    embedded_impact_data
  = Ok (round1 (fold_left PrimFloat.add (ds ++ rs ++ cs ++ [m]) 0%float)).
Proof.
  intros Hd Hr Hc Hm Hds Hrs Hcs Hmb.
  unfold Prototype.get_total_embedded_emissions.
  rewrite Hd. cbn [rbind iter].
  rewrite (add_manufacture_fold float_of_str disks ds Hds). cbn [rbind].
  rewrite Hr. cbn [rbind iter].
  rewrite (add_manufacture_fold float_of_str rams rs Hrs). cbn [rbind].
  rewrite Hc. cbn [rbind iter].
  rewrite (add_manufacture_fold float_of_str cpus cs Hcs). cbn [rbind].
  rewrite Hm. cbn [rbind]. unfold manufacture_is in Hmb. rewrite Hmb.
  cbn [rbind]. rewrite !fold_left_app. reflexivity.
Qed.

(** A run of X21's statement: five components of 10.5 each. *)
Lemma total_is_rounded_sum_witness :
  Prototype.get_total_embedded_emissions Sample.float_of_str Sample.round1
    Sample.embedded
  = Ok 52.5%float.
Proof.
  rewrite (total_is_rounded_sum Sample.float_of_str Sample.round1
             Sample.embedded
             [Sample.component_answer]
             [Sample.component_answer]
             [Sample.component_answer; Sample.component_answer]
             Sample.component_answer
             [10.5] [10.5] [10.5; 10.5] 10.5)%float.
  - reflexivity.
  - reflexivity.
  - reflexivity.
  - reflexivity.
  - reflexivity.
  - repeat constructor.
  - repeat constructor.
  - repeat constructor.
  - reflexivity.
Defined.

(** X22: the first version has no cache.  Every [query] runs the collector
    before anything else and reads the file it wrote; when that file does
    not load, or the collector cannot be started, the request fails at once,
    with no second attempt and no call to the impact service. *)
Theorem prototype_query_has_no_cache
  (float_of_str : string -> option float) (round1 : float -> float)
  (api : Prototype.client) (hardware_cli : file -> result file)
  (now start_time end_time : float) (hardware_file : file) :
  (forall e : exn,
      hardware_cli hardware_file = Raise e ->
      Prototype.query float_of_str round1 api hardware_cli now start_time
        end_time hardware_file
      = ((Raise e, [Prototype.Collect]), hardware_file))
  /\ (forall (written : file) (e : exn),
        hardware_cli hardware_file = Ok written ->
        json_load written = Raise e ->
        Prototype.query float_of_str round1 api hardware_cli now start_time
          end_time hardware_file
        = ((Raise e, [Prototype.Collect; Prototype.ReadHardware]), written))
  /\ (forall (written : file) (hardware_data : pyval),
        hardware_cli hardware_file = Ok written ->
        json_load written = Ok hardware_data ->
        exists calls : list Prototype.call,
          snd (fst (Prototype.query float_of_str round1 api hardware_cli now
                      start_time end_time hardware_file))
          = Prototype.Collect :: Prototype.ReadHardware :: calls
          /\ calls
             = snd (Prototype.get_embedded_impact_data api hardware_data)
          /\ snd (Prototype.query float_of_str round1 api hardware_cli now
                    start_time end_time hardware_file)
             = written).
Proof.
  unfold Prototype.query, Prototype.get_hardware_data.
  split; [| split].
  - intros e ->. reflexivity.
  - intros written e -> ->. reflexivity.
  - intros written hardware_data -> ->. cbn [fst snd Prototype.tbind].
    destruct (Prototype.get_embedded_impact_data api hardware_data)
      as [[embedded | e] calls]; cbn.
    + destruct (Prototype.get_total_embedded_emissions float_of_str round1
                  embedded); cbn; rewrite ?app_nil_r; eexists;
        repeat split; reflexivity.
    + eexists. repeat split; reflexivity.
Qed.

(** Runs of X22's statement: a collector that writes the inventory over a
    missing file, and one that writes something that does not parse over a
    good file. *)
Lemma prototype_query_has_no_cache_witness :
  (exists calls : list Prototype.call,
      snd (fst (Prototype.query Sample.float_of_str Sample.round1
                  Sample.client (fun _ => Ok (Json Sample.hardware))
                  1700000000 0 0 Missing))
      = Prototype.Collect :: Prototype.ReadHardware :: calls)
  /\ Prototype.query Sample.float_of_str Sample.round1 Sample.client
       (fun _ => Ok Unparsable) 1700000000 0 0 (Json Sample.hardware)
     = ((Raise JSONDecodeError, [Prototype.Collect; Prototype.ReadHardware]),
        Unparsable).
Proof.
  split.
  - destruct (prototype_query_has_no_cache Sample.float_of_str Sample.round1
                Sample.client (fun _ => Ok (Json Sample.hardware))
                1700000000 0 0 Missing) as (_ & _ & H).
    destruct (H (Json Sample.hardware) Sample.hardware eq_refl eq_refl)
      as (calls & Hcalls & _).
    exists calls. exact Hcalls.
  - destruct (prototype_query_has_no_cache Sample.float_of_str Sample.round1
                Sample.client (fun _ => Ok Unparsable)
                1700000000 0 0 (Json Sample.hardware)) as (_ & H & _).
    exact (H Unparsable JSONDecodeError eq_refl eq_refl).
Defined.

(** X23: the report of the first version echoes the window: a start that was
    passed as zero becomes the clock reading and an end that was passed as
    zero becomes the reading plus 30 seconds; other bounds are kept.  Its
    total is [get_total_embedded_emissions] of the impact data it reports,
    and the four parts that are not computed say so. *)
Theorem prototype_report_window_and_total
  (float_of_str : string -> option float) (round1 : float -> float)
  (api : Prototype.client) (hardware_cli : file -> result file)
  (now start_time end_time : float) (hardware_file written : file)
  (report : pyval) (calls : list Prototype.call) :
  Prototype.query float_of_str round1 api hardware_cli now start_time
    end_time hardware_file
  = ((Ok report, calls), written) ->
  getitem report "start_time"
  = Ok (VFloat (if (start_time =? 0)%float then now else start_time))
  /\ getitem report "end_time"
     = Ok (VFloat (if (end_time =? 0)%float
                   then (end_time + (now + 30))%float else end_time))
  /\ (exists (embedded_impact_data : pyval) (total : float),
        getitem report "embedded_impact_data" = Ok embedded_impact_data
        /\ Prototype.get_total_embedded_emissions float_of_str round1
             embedded_impact_data = Ok total
        /\ getitem report "total_embedded_emissions" = Ok (VFloat total))
  /\ json_load written = getitem report "hardware_data"
  /\ (forall name : string,
        In name ["power_data"; "resources_data"; "total_emissions";
                 "total_power_consumption"; "total_operational_emissions"] ->
        getitem report name = Ok Prototype.not_implemented).
Proof.
  unfold Prototype.query, Prototype.get_hardware_data.
  destruct (hardware_cli hardware_file) as [f |];
    [| cbn; discriminate].
  intros H. cbv beta iota zeta in H. apply pair_equal_spec in H.
  destruct H as [Hrun Hfile]. subst f.
  apply tbind_ok in Hrun.
  destruct Hrun as (hardware_data & c1 & c2 & Hload & Hrun & ->).
  apply tbind_ok in Hrun.
  destruct Hrun as (embedded & c3 & c4 & Hembedded & Hrun & ->).
  apply tbind_ok in Hrun.
  destruct Hrun as (total & c5 & c6 & Htotal & Hrun & ->).
  unfold Prototype.tret in Hrun. inversion Hrun. subst report c6.
  unfold Prototype.tlift in Htotal. inversion Htotal as [[Htotal' E]].
  inversion Hload as [[Hload' E']].
  split; [reflexivity |]. split; [reflexivity |].
  split; [exists embedded, total; repeat split; assumption |].
  split; [exact Hload' |].
  intros name Hin. cbn in Hin.
  repeat (destruct Hin as [<- | Hin]; [reflexivity |]). contradiction.
Qed.

(** A run of X23's statement: both bounds zero on the sample host. *)
Lemma prototype_report_window_and_total_witness :
  getitem (Sample.prototype_report 0 0) "start_time"
  = Ok (VFloat 1700000000)
  /\ getitem (Sample.prototype_report 0 0) "end_time"
     = Ok (VFloat 1700000030)
  /\ getitem (Sample.prototype_report 0 0) "total_embedded_emissions"
     = Ok (VFloat 52.5).
Proof.
  destruct (prototype_report_window_and_total Sample.float_of_str
              Sample.round1 Sample.client (fun _ => Ok (Json Sample.hardware))
              1700000000 0 0 Missing (Json Sample.hardware)
              (Sample.prototype_report 0 0)
              (snd (fst (Prototype.query Sample.float_of_str Sample.round1
                           Sample.client
                           (fun _ => Ok (Json Sample.hardware))
                           1700000000 0 0 Missing)))
              eq_refl)
    as (Hstart & Hend & _).
  split; [exact Hstart |]. split; [exact Hend |]. reflexivity.
Defined.
